(** * calendarify: the configuration loader and validator

    A shallow embedding of [src/config/index.ts] (with the shapes of
    [src/config/types.ts]) and the properties of its validator.

    - JSON documents are the values [JSON.parse] builds.
    - Exceptions are an explicit error monad ([result]).
    - The host (file system, JSON parser, time zone database) is a record
      of functions the definitions are parameterised by. *)

From Stdlib Require Import String Ascii List ZArith Bool Lia DecimalString.
Import ListNotations.
Open Scope string_scope.

(* ================================================================== *)
(** * JavaScript values that come out of [JSON.parse]                  *)
(* ================================================================== *)

(** A number is the IEEE 754 double the parser produced, kept as its
    64-bit pattern.  An object is its list of members in the order
    [Object.entries] enumerates them; the parser builds no object with
    a key twice, and where a list has one twice the first is the member
    (nothing below depends on it). *)
#[warnings="-register-all"] Inductive JSON : Type :=
| JNull
| JBool (b : bool)
| JNumber (bits : Z)
| JString (s : string)
| JArray (elements : list JSON)
| JObject (members : list (string * JSON)).

(** A JavaScript value of type [unknown]: a JSON value or [undefined]. *)
Definition value : Type := option JSON.
Abbreviation undefined := (@None JSON).

(** [typeof v] *)
Definition typeof (v : value) : string :=
  match v with
  | None => "undefined"
  | Some JNull => "object"
  | Some (JBool _) => "boolean"
  | Some (JNumber _) => "number"
  | Some (JString _) => "string"
  | Some (JArray _) => "object"
  | Some (JObject _) => "object"
  end.

(** ToBoolean: [undefined], [null], [false], [+0], [-0], [NaN] and the
    empty string are falsy. *)
Definition truthy (v : value) : bool :=
  match v with
  | None => false
  | Some JNull => false
  | Some (JBool b) => b
  | Some (JNumber bits) =>
      let magnitude := Z.land bits 0x7fffffffffffffff in
      negb (magnitude =? 0)%Z && (magnitude <=? 0x7ff0000000000000)%Z
  | Some (JString s) => negb (s =? "")
  | Some (JArray _) => true
  | Some (JObject _) => true
  end.

(** [Array.isArray v] *)
Definition Array_isArray (v : value) : bool :=
  match v with
  | Some (JArray _) => true
  | _ => false
  end.

(** First member with the given key. *)
Fixpoint lookup (key : string) (members : list (string * JSON)) : value :=
  match members with
  | [] => undefined
  | (k, v) :: rest => if k =? key then Some v else lookup key rest
  end.

(** The named member of a parsed value.  Every name the validator looks
    up is one of the fixed field names of its call sites; none of them is
    an array index, [length], or a name inherited from a prototype, so
    on these names an array and a primitive have no such member.  The
    members that a value has without the JSON text giving them (those of
    the prototypes, the indices and the [length] of an array) are not
    modelled: what is said of a field spec in general is said of specs
    of plain names ([plain_name] below). *)
Definition member (o : JSON) (field : string) : value :=
  match o with
  | JObject members => lookup field members
  | _ => undefined
  end.

(* ================================================================== *)
(** * Exceptions                                                       *)
(* ================================================================== *)

(** What can be thrown: the module's own [ConfigValidationError], the
    built-in [SyntaxError], [TypeError] and [RangeError], and a plain
    [Error]. *)
Inductive exn : Type :=
| ConfigValidationError (message : string)
| SyntaxError (message : string)
| TypeError (message : string)
| RangeError (message : string)
| Error (message : string).

Definition message (e : exn) : string :=
  match e with
  | ConfigValidationError m | SyntaxError m | TypeError m
  | RangeError m | Error m => m
  end.

Definition instanceof_SyntaxError (e : exn) : bool :=
  match e with SyntaxError _ => true | _ => false end.

Definition instanceof_ConfigValidationError (e : exn) : bool :=
  match e with ConfigValidationError _ => true | _ => false end.

Inductive result (A : Type) : Type :=
| Ok (a : A)
| Throw (e : exn).
Arguments Ok {A} a.
Arguments Throw {A} e.

Definition bind {A B} (c : result A) (k : A -> result B) : result B :=
  match c with
  | Ok a => k a
  | Throw e => Throw e
  end.

Declare Scope js_scope.
Delimit Scope js_scope with js.
Notation "x <- c ;; k" := (bind c (fun x => k))
  (at level 61, c at next level, right associativity) : js_scope.
Notation "c ;; k" := (bind c (fun _ => k))
  (at level 61, right associativity) : js_scope.
Open Scope js_scope.

(** [try { body } catch (error) { handler }] *)
Definition try_catch {A} (body : result A) (handler : exn -> result A)
  : result A :=
  match body with
  | Ok a => Ok a
  | Throw e => handler e
  end.

(** [for (const x of xs) { body }] with a body that may throw. *)
Fixpoint for_of {A} (xs : list A) (body : A -> result unit) : result unit :=
  match xs with
  | [] => Ok tt
  | x :: rest => body x ;; for_of rest body
  end.

(** [v[field]]: reading a member of [undefined] or [null] throws.  For
    plain names only, as [member]. *)
Definition get (v : value) (field : string) : result value :=
  match v with
  | None | Some JNull =>
      Throw (TypeError ("Cannot read properties of " ++
                        match v with None => "undefined" | _ => "null" end))
  | Some o => Ok (member o field)
  end.

(** [field in v]: throws unless [v] is an object.  For plain names
    only, as [member]. *)
Definition has_property (field : string) (v : value) : result bool :=
  match v with
  | Some (JObject _ as o) | Some (JArray _ as o) =>
      Ok (match member o field with Some _ => true | None => false end)
  | _ => Throw (TypeError "Cannot use 'in' operator")
  end.

(** [`${index}`] for an array index. *)
Definition index_to_string (index : nat) : string :=
  NilEmpty.string_of_uint (Nat.to_uint index).

(** [array.entries()] : the elements paired with their indices. *)
Definition entries {A} (xs : list A) : list (nat * A) :=
  combine (seq 0 (length xs)) xs.

(* ================================================================== *)
(** * The two checkers                                                 *)
(* ================================================================== *)

(** [validateObjectFields(obj, fields, objName)].  [fields] is the field
    spec in the order [Object.entries] yields it: each name with its
    kind tag.  The [true] that the type guard returns is read by no
    caller: [Ok tt] stands for it. *)
Definition validateObjectFields (obj : value) (fields : list (string * string))
    (objName : string) : result unit :=
  if negb (truthy obj) || negb (typeof obj =? "object") then
    Throw (ConfigValidationError (objName ++ " must be an object"))
  else
    for_of fields (fun '(field, type) =>
      present <- has_property field obj ;;
      if negb present then
        Throw (ConfigValidationError
          ("Missing required field '" ++ field ++ "' in " ++ objName))
      else
        value <- get obj field ;;
        if (type =? "string") && negb (typeof value =? "string") then
          Throw (ConfigValidationError
            ("Field '" ++ field ++ "' in " ++ objName ++ " must be a string"))
        else if (type =? "array") && negb (Array_isArray value) then
          Throw (ConfigValidationError
            ("Field '" ++ field ++ "' in " ++ objName ++ " must be an array"))
        else if (type =? "object") &&
                (negb (truthy value) || negb (typeof value =? "object")
                 || Array_isArray value) then
          Throw (ConfigValidationError
            ("Field '" ++ field ++ "' in " ++ objName ++ " must be an object"))
        else Ok tt).

(** [allowedValues.includes(value)] for a string [value]. *)
Definition includes (allowedValues : list string) (s : string) : bool :=
  existsb (String.eqb s) allowedValues.

(** [validateEnum(value, allowedValues, fieldName)]; [Ok tt] stands for
    the [true] it returns. *)
Definition validateEnum (value : value) (allowedValues : list string)
    (fieldName : string) : result unit :=
  if negb (typeof value =? "string")
     || negb (match value with
              | Some (JString s) => includes allowedValues s
              | _ => false
              end) then
    Throw (ConfigValidationError
      ("Invalid value for '" ++ fieldName ++ "'. Must be one of: " ++
       String.concat ", " allowedValues))
  else Ok tt.

(* ================================================================== *)
(** * Regular expressions                                              *)
(* ================================================================== *)

(** The fragment of the regular expression syntax that [timeRegex]
    uses: a character class [[lo-hi]] (a literal is the class of one
    character), concatenation and alternation. *)
Inductive regex : Type :=
| Class (lo hi : ascii)
| Seq (r1 r2 : regex)
| Alt (r1 r2 : regex).

Definition Lit (c : ascii) : regex := Class c c.

(** Whether the character [c] is in the class [[lo-hi]]. *)
Definition in_class (lo hi c : ascii) : bool :=
  Ascii.leb lo c && Ascii.leb c hi.

(** Backtracking matcher: every suffix left over after [r] has matched
    a prefix of [s], in the order the alternatives are tried. *)
Fixpoint leftovers (r : regex) (s : string) : list string :=
  match r with
  | Class lo hi =>
      match s with
      | String c rest => if in_class lo hi c then [rest] else []
      | EmptyString => []
      end
  | Seq r1 r2 => flat_map (leftovers r2) (leftovers r1 s)
  | Alt r1 r2 => leftovers r1 s ++ leftovers r2 s
  end.

(** [/^r$/.test(s)]: some way of matching [r] consumes all of [s]. *)
Definition RegExp_test (r : regex) (s : string) : bool :=
  existsb (String.eqb "") (leftovers r s).

(** [/^([0-1][0-9]|2[0-3]):([0-5][0-9])$/] *)
Definition timeRegex : regex :=
  Seq (Alt (Seq (Class "0" "1") (Class "0" "9"))
           (Seq (Lit "2") (Class "0" "3")))
      (Seq (Lit ":")
           (Seq (Class "0" "5") (Class "0" "9"))).

(* ================================================================== *)
(** * The host                                                         *)
(* ================================================================== *)

(** Outcome of [readFile(path, 'utf-8')] from [node:fs/promises]: the
    text, or a rejection with a Node.js system error, which is an
    [Error] that is neither a [SyntaxError] nor a
    [ConfigValidationError]. *)
Inductive read_outcome : Type :=
| Fulfilled (content : string)
| Rejected (message : string).

(** Outcome of [JSON.parse(text)]: the value, or a [SyntaxError]. *)
Inductive parse_outcome : Type :=
| Parsed (config : JSON)
| Malformed (message : string).

Record Host : Type := {
  (** whether [Intl.DateTimeFormat] accepts the time zone identifier *)
  timeZoneSupported : string -> bool;
  readFile : string -> read_outcome;
  JSON_parse : string -> parse_outcome
}.

(** The static types of [types.ts], seen at run time: [config as IConfig]
    is no check at all, and using a value at its declared type fails with
    a [TypeError] (or worse) when the value is of another shape. *)
Definition as_string (v : value) : result string :=
  match v with
  | Some (JString s) => Ok s
  | _ => Throw (TypeError "not a string")
  end.

(** [array.entries()] on a value declared to be an array. *)
Definition Array_entries (v : value) : result (list (nat * JSON)) :=
  match v with
  | Some (JArray elements) => Ok (entries elements)
  | _ => Throw (TypeError "entries is not a function")
  end.

(** [Object.entries(v)] on a value declared to be a record. *)
Definition Object_entries (v : value) : result (list (string * JSON)) :=
  match v with
  | Some (JObject members) => Ok members
  | _ => Throw (TypeError "Cannot convert undefined or null to object")
  end.

(** [Intl.DateTimeFormat(undefined, { timeZone })] *)
Definition Intl_DateTimeFormat (h : Host) (timeZone : string) : result unit :=
  if timeZoneSupported h timeZone then Ok tt
  else Throw (RangeError ("Invalid time zone specified: " ++ timeZone)).

(* ================================================================== *)
(** * The validator                                                    *)
(* ================================================================== *)

Definition IConfig_fields : list (string * string) :=
  [("calendars", "array"); ("shifts", "object"); ("employees", "object");
   ("deletion_policy", "string"); ("event_handling", "object");
   ("timezone", "string")].

Definition ICalendarEntry_fields : list (string * string) :=
  [("calendar_id", "string"); ("employees", "array")].

Definition IShiftConfig_fields : list (string * string) :=
  [("label", "string"); ("color", "string"); ("period", "object")].

Definition IShiftPeriod_fields : list (string * string) :=
  [("start", "string"); ("end", "string")].

Definition IEventHandlingConfig_fields : list (string * string) :=
  [("duplicate_shifts", "string"); ("overlapping_shifts", "string");
   ("api_failures", "string"); ("partial_updates", "string");
   ("missing_employees", "string"); ("extra_employees", "string")].

Definition DeletionPolicy : list string :=
  ["full_sync"; "preserve_manual"; "append_only"].
Definition duplicate_shifts_values : list string :=
  ["update"; "skip"; "create_new"].
Definition overlapping_shifts_values : list string :=
  ["error"; "warn"; "ignore"].
Definition api_failures_values : list string :=
  ["abort"; "retry"; "log_continue"].
Definition partial_updates_values : list string :=
  ["preserve_existing"; "revert_all"; "continue"].
Definition missing_employees_values : list string :=
  ["error"; "warn_continue"; "skip"].
Definition extra_employees_values : list string :=
  ["create"; "warn"; "ignore"].

(** Every field name that [validateConfig] passes to the field checker. *)
Definition declared_names : list string :=
  map fst (IConfig_fields ++ ICalendarEntry_fields ++ IShiftConfig_fields
           ++ IShiftPeriod_fields ++ IEventHandlingConfig_fields).

(** The names that an object or an array has without the JSON text
    giving them: those of [Object.prototype] and [Array.prototype], and
    [length]. *)
Definition intrinsic_names : list string :=
  ["constructor"; "hasOwnProperty"; "isPrototypeOf"; "propertyIsEnumerable";
   "toLocaleString"; "toString"; "valueOf"; "__defineGetter__";
   "__defineSetter__"; "__lookupGetter__"; "__lookupSetter__"; "__proto__";
   "length"; "at"; "concat"; "copyWithin"; "entries"; "every"; "fill";
   "filter"; "find"; "findIndex"; "findLast"; "findLastIndex"; "flat";
   "flatMap"; "forEach"; "includes"; "indexOf"; "join"; "keys";
   "lastIndexOf"; "map"; "pop"; "push"; "reduce"; "reduceRight"; "reverse";
   "shift"; "slice"; "some"; "sort"; "splice"; "toReversed"; "toSorted";
   "toSpliced"; "unshift"; "values"; "with"].

(** Whether a name starts with a digit, as every array index does. *)
Definition starts_with_digit (name : string) : bool :=
  match name with
  | String c _ => in_class "0" "9" c
  | EmptyString => false
  end.

(** A plain name: not intrinsic to objects or arrays and no array index.
    On a plain name [in] and member access see the members that the JSON
    text gives, and nothing else; every name of [declared_names] is
    plain. *)
Definition plain_name (name : string) : bool :=
  negb (includes intrinsic_names name) && negb (starts_with_digit name).

(** Body of the loop over [typedConfig.calendars.entries()]. *)
Definition validateCalendar (entry : nat * JSON) : result unit :=
  let '(index, calendar) := entry in
  validateObjectFields (Some calendar) ICalendarEntry_fields
    ("calendars[" ++ index_to_string index ++ "]").

(** Body of the loop over [Object.entries(typedConfig.shifts)]. *)
Definition validateShift (entry : string * JSON) : result unit :=
  let '(key, shift) := entry in
  validateObjectFields (Some shift) IShiftConfig_fields ("shifts." ++ key) ;;
  period <- get (Some shift) "period" ;;
  validateObjectFields period IShiftPeriod_fields
    ("shifts." ++ key ++ ".period") ;;
  start_v <- get period "start" ;;
  start <- as_string start_v ;;
  (if negb (RegExp_test timeRegex start) then
     Throw (ConfigValidationError
       ("Invalid time format for shifts." ++ key ++
        ".period.start. Must be HH:MM format."))
   else Ok tt) ;;
  end_v <- get period "end" ;;
  end_ <- as_string end_v ;;
  if negb (RegExp_test timeRegex end_) then
    Throw (ConfigValidationError
      ("Invalid time format for shifts." ++ key ++
       ".period.end. Must be HH:MM format."))
  else Ok tt.

(** [validateEnum(typedConfig.event_handling.<field>, allowedValues,
    'event_handling.<field>')], the shape of the six policy checks. *)
Definition validatePolicy (typedConfig : value) (field : string)
    (allowedValues : list string) : result unit :=
  event_handling <- get typedConfig "event_handling" ;;
  policy <- get event_handling field ;;
  validateEnum policy allowedValues ("event_handling." ++ field).

(** [validateConfig(config)] *)
Definition validateConfig (h : Host) (config : value) : result unit :=
  validateObjectFields config IConfig_fields "config" ;;
  let typedConfig := config in
  deletion_policy <- get typedConfig "deletion_policy" ;;
  validateEnum deletion_policy DeletionPolicy "deletion_policy" ;;
  calendars <- get typedConfig "calendars" ;;
  calendar_entries <- Array_entries calendars ;;
  for_of calendar_entries validateCalendar ;;
  shifts <- get typedConfig "shifts" ;;
  shift_entries <- Object_entries shifts ;;
  for_of shift_entries validateShift ;;
  event_handling <- get typedConfig "event_handling" ;;
  validateObjectFields event_handling IEventHandlingConfig_fields
    "event_handling" ;;
  validatePolicy typedConfig "duplicate_shifts" duplicate_shifts_values ;;
  validatePolicy typedConfig "overlapping_shifts"
    overlapping_shifts_values ;;
  validatePolicy typedConfig "api_failures" api_failures_values ;;
  validatePolicy typedConfig "partial_updates" partial_updates_values ;;
  validatePolicy typedConfig "missing_employees"
    missing_employees_values ;;
  validatePolicy typedConfig "extra_employees" extra_employees_values ;;
  timezone_v <- get typedConfig "timezone" ;;
  timezone <- as_string timezone_v ;;
  try_catch (Intl_DateTimeFormat h timezone)
    (fun error =>
       Throw (ConfigValidationError ("Invalid timezone: " ++ timezone))).

(* ================================================================== *)
(** * The loader                                                       *)
(* ================================================================== *)

(** The [try] block of [loadConfig]. *)
Definition loadConfig_body (h : Host) (configPath : string) : result JSON :=
  configContent <-
    match readFile h configPath with
    | Fulfilled content => Ok content
    | Rejected m => Throw (Error m)
    end ;;
  config <-
    match JSON_parse h configContent with
    | Parsed config => Ok config
    | Malformed m => Throw (SyntaxError m)
    end ;;
  validateConfig h (Some config) ;;
  Ok config.

(** The [catch] block of [loadConfig]. *)
Definition loadConfig_handler (error : exn) : result JSON :=
  if instanceof_SyntaxError error then
    Throw (ConfigValidationError
      ("Invalid JSON in config file: " ++ message error))
  else if instanceof_ConfigValidationError error then
    Throw error
  else
    Throw (Error ("Failed to load config file: " ++ message error)).

(** [loadConfig(configPath)]: the settled promise. *)
Definition loadConfig (h : Host) (configPath : string) : result JSON :=
  try_catch (loadConfig_body h configPath) loadConfig_handler.

(* ================================================================== *)
(** * What the checkers compute                                        *)
(* ================================================================== *)

(** The member of a value that may be [undefined]. *)
Definition own (obj : value) (field : string) : value :=
  match obj with
  | Some o => member o field
  | None => undefined
  end.

(** The precondition of the field checker: a non-null object (an array
    is one). *)
Definition is_object (obj : value) : bool :=
  truthy obj && (typeof obj =? "object").

(** The coarse kinds: a string, an array, a non-array object.  Any other
    tag asks for nothing. *)
Definition kind_matches (type : string) (v : value) : bool :=
  if type =? "string" then typeof v =? "string"
  else if type =? "array" then Array_isArray v
  else if type =? "object" then
    truthy v && (typeof v =? "object") && negb (Array_isArray v)
  else true.

(** A declared field is in order: present, and of its kind. *)
Definition field_ok (obj : value) (declared : string * string) : bool :=
  match own obj (fst declared) with
  | Some v => kind_matches (snd declared) (Some v)
  | None => false
  end.

Definition kind_phrase (type : string) : string :=
  if type =? "string" then "a string"
  else if type =? "array" then "an array"
  else "an object".

(** The message for a declared field that is not in order. *)
Definition field_error (obj : value) (objName : string)
    (declared : string * string) : string :=
  match own obj (fst declared) with
  | None => "Missing required field '" ++ fst declared ++ "' in " ++ objName
  | Some _ =>
      "Field '" ++ fst declared ++ "' in " ++ objName ++ " must be " ++
      kind_phrase (snd declared)
  end.

(** The first element of a list that fails a test, with its error. *)
Definition first_failure {A} (ok : A -> bool) (err : A -> exn) (xs : list A)
  : result unit :=
  match find (fun x => negb (ok x)) xs with
  | Some x => Throw (err x)
  | None => Ok tt
  end.


(** The message the specification words give for a field of the wrong
    kind: ["Field '<field>' in <contextLabel> must be a <kind>"]. *)
Definition kind_message_as_specified (field contextLabel kind : string)
  : string :=
  "Field '" ++ field ++ "' in " ++ contextLabel ++ " must be a " ++ kind.

(** The enum check as a test on the value. *)
Definition enum_member (value : value) (allowedValues : list string) : bool :=
  match value with
  | Some (JString s) => includes allowedValues s
  | _ => false
  end.

(** A time of day as the data model words it: [HH:MM], hours 00 to 23,
    minutes 00 to 59. *)
Definition digit (n : nat) : ascii := ascii_of_nat (48 + n).

Definition two_digits (n : nat) : string :=
  String (digit (n / 10)) (String (digit (n mod 10)) "").

Definition HHMM (s : string) : Prop :=
  exists hh mm, hh < 24 /\ mm < 60 /\
    s = two_digits hh ++ ":" ++ two_digits mm.

(** The top-level shape that the first check of [validateConfig] asks
    for. *)
Definition top_level_shape (config : value)
    (cs : list JSON) (ss es : list (string * JSON)) (dp : string)
    (eh : list (string * JSON)) (tz : string) : Prop :=
  own config "calendars" = Some (JArray cs) /\
  own config "shifts" = Some (JObject ss) /\
  own config "employees" = Some (JObject es) /\
  own config "deletion_policy" = Some (JString dp) /\
  own config "event_handling" = Some (JObject eh) /\
  own config "timezone" = Some (JString tz).

(** The validator, once the top-level shape is known. *)
Definition validateConfig_checked (h : Host)
    (cs : list JSON) (ss : list (string * JSON)) (dp : string)
    (eh : list (string * JSON)) (tz : string) : result unit :=
  validateEnum (Some (JString dp)) DeletionPolicy "deletion_policy" ;;
  for_of (entries cs) validateCalendar ;;
  for_of ss validateShift ;;
  validateObjectFields (Some (JObject eh)) IEventHandlingConfig_fields
    "event_handling" ;;
  validateEnum (lookup "duplicate_shifts" eh) duplicate_shifts_values
    "event_handling.duplicate_shifts" ;;
  validateEnum (lookup "overlapping_shifts" eh) overlapping_shifts_values
    "event_handling.overlapping_shifts" ;;
  validateEnum (lookup "api_failures" eh) api_failures_values
    "event_handling.api_failures" ;;
  validateEnum (lookup "partial_updates" eh) partial_updates_values
    "event_handling.partial_updates" ;;
  validateEnum (lookup "missing_employees" eh) missing_employees_values
    "event_handling.missing_employees" ;;
  validateEnum (lookup "extra_employees" eh) extra_employees_values
    "event_handling.extra_employees" ;;
  if timeZoneSupported h tz then Ok tt
  else Throw (ConfigValidationError ("Invalid timezone: " ++ tz)).

(* ================================================================== *)
(** * The order of the checks, as the specification lists it           *)
(* ================================================================== *)

(** The first error in a list of check outcomes, if any. *)
Fixpoint first_throw (outcomes : list (result unit)) : result unit :=
  match outcomes with
  | [] => Ok tt
  | Ok _ :: rest => first_throw rest
  | Throw e :: _ => Throw e
  end.

(** The string a value holds (the empty string when it holds none). *)
Definition string_of (v : value) : string :=
  match v with
  | Some (JString s) => s
  | _ => ""
  end.

Definition elements_of (v : value) : list JSON :=
  match v with
  | Some (JArray elements) => elements
  | _ => []
  end.

Definition members_of (v : value) : list (string * JSON) :=
  match v with
  | Some (JObject members) => members
  | _ => []
  end.

(** The time format of [shifts.<key>.period.<which>]. *)
Definition time_format_check (key which : string) (period : value)
  : result unit :=
  if RegExp_test timeRegex (string_of (own period which)) then Ok tt
  else Throw (ConfigValidationError
         ("Invalid time format for shifts." ++ key ++ ".period." ++ which ++
          ". Must be HH:MM format.")).

(** The four checks of one shift: shape, period shape, start, end. *)
Definition shift_checks (entry : string * JSON) : list (result unit) :=
  let '(key, shift) := entry in
  let period := own (Some shift) "period" in
  [ validateObjectFields (Some shift) IShiftConfig_fields ("shifts." ++ key);
    validateObjectFields period IShiftPeriod_fields
      ("shifts." ++ key ++ ".period");
    time_format_check key "start" period;
    time_format_check key "end" period ].

(** The check of the calendar at position [index]: an object with a
    string [calendar_id] and an array [employees], reported under
    [calendars[<index>]]. *)
Definition calendar_check (index : nat) (calendar : JSON) : result unit :=
  validateObjectFields (Some calendar)
    [("calendar_id", "string"); ("employees", "array")]
    ("calendars[" ++ index_to_string index ++ "]").

(** The checks of the calendars in list order, the first at position
    [index], each next one at the position after. *)
Fixpoint calendar_checks_from (index : nat) (calendars : list JSON)
  : list (result unit) :=
  match calendars with
  | [] => []
  | calendar :: rest =>
      calendar_check index calendar :: calendar_checks_from (S index) rest
  end.

(** The enum check of one [event_handling] policy. *)
Definition policy_check (config : value) (field : string)
    (allowedValues : list string) : result unit :=
  validateEnum (own (own config "event_handling") field) allowedValues
    ("event_handling." ++ field).

(** The time zone check. *)
Definition timezone_check (h : Host) (timezone : value) : result unit :=
  if timeZoneSupported h (string_of timezone) then Ok tt
  else Throw (ConfigValidationError
         ("Invalid timezone: " ++ string_of timezone)).

(** Every check on a document, each run on its own, in the fixed order:
    the top level, the deletion policy, the calendars by ascending index,
    the shifts (for each: shape, period shape, start, end), the fields of
    [event_handling], its six policies, the time zone. *)
Definition checks_in_order (h : Host) (config : value)
  : list (result unit) :=
  [ validateObjectFields config IConfig_fields "config";
    validateEnum (own config "deletion_policy") DeletionPolicy
      "deletion_policy" ]
  ++ calendar_checks_from 0 (elements_of (own config "calendars"))
  ++ flat_map shift_checks (members_of (own config "shifts"))
  ++ [ validateObjectFields (own config "event_handling")
         IEventHandlingConfig_fields "event_handling";
       policy_check config "duplicate_shifts" duplicate_shifts_values;
       policy_check config "overlapping_shifts" overlapping_shifts_values;
       policy_check config "api_failures" api_failures_values;
       policy_check config "partial_updates" partial_updates_values;
       policy_check config "missing_employees" missing_employees_values;
       policy_check config "extra_employees" extra_employees_values;
       timezone_check h (own config "timezone") ].

(* ================================================================== *)
(** * The enum-checked fields, as the specification lists them         *)
(* ================================================================== *)

(** An enum-checked field: the name under which it is reported, where
    its value is in the document, and its fixed allowed set. *)
Record enum_site : Type := {
  site_name : string;
  site_value : value -> value;
  site_allowed : list string
}.

Definition policy_site (field : string) (allowed : list string)
  : enum_site :=
  {| site_name := "event_handling." ++ field;
     site_value := fun config => own (own config "event_handling") field;
     site_allowed := allowed |}.

(** The deletion policy and the six policies of [event_handling], in the
    order in which they are checked. *)
Definition enum_checked_fields : list enum_site :=
  [ {| site_name := "deletion_policy";
       site_value := fun config => own config "deletion_policy";
       site_allowed := ["full_sync"; "preserve_manual"; "append_only"] |};
    policy_site "duplicate_shifts" ["update"; "skip"; "create_new"];
    policy_site "overlapping_shifts" ["error"; "warn"; "ignore"];
    policy_site "api_failures" ["abort"; "retry"; "log_continue"];
    policy_site "partial_updates"
      ["preserve_existing"; "revert_all"; "continue"];
    policy_site "missing_employees" ["error"; "warn_continue"; "skip"];
    policy_site "extra_employees" ["create"; "warn"; "ignore"] ].

(** ["Invalid value for '<fieldName>'. Must be one of: <allowed joined by
    ', '>"] *)
Definition enum_message (fieldName : string) (allowed : list string)
  : string :=
  "Invalid value for '" ++ fieldName ++ "'. Must be one of: " ++
  String.concat ", " allowed.

(** The value of the field is a string and a member of its allowed set. *)
Definition site_in_order (site : enum_site) (config : value) : Prop :=
  exists s, site_value site config = Some (JString s) /\
            In s (site_allowed site).

(** The check of one enum-checked field: success on a string that is a
    member of the allowed set, the message of the field otherwise. *)
Definition enum_check (site : enum_site) (config : value) : result unit :=
  match site_value site config with
  | Some (JString s) =>
      if in_dec string_dec s (site_allowed site) then Ok tt
      else Throw (ConfigValidationError
             (enum_message (site_name site) (site_allowed site)))
  | _ => Throw (ConfigValidationError
           (enum_message (site_name site) (site_allowed site)))
  end.

(* ================================================================== *)
(** * Fixtures of the test suite ([index.spec.ts])                     *)
(* ================================================================== *)

Definition validConfig_shifts : JSON :=
  JObject
    [("M", JObject [("label", JString "Morning Shift");
                    ("color", JString "#FFD700");
                    ("period", JObject [("start", JString "08:00");
                                        ("end", JString "16:00")])]);
     ("N", JObject [("label", JString "Night Shift");
                    ("color", JString "#483D8B");
                    ("period", JObject [("start", JString "22:00");
                                        ("end", JString "06:00")])])].

Definition validConfig_event_handling : JSON :=
  JObject
    [("duplicate_shifts", JString "update");
     ("overlapping_shifts", JString "error");
     ("api_failures", JString "log_continue");
     ("partial_updates", JString "preserve_existing");
     ("missing_employees", JString "warn_continue");
     ("extra_employees", JString "ignore")].

(** A document with the six fields given. *)
Definition config_of (calendars shifts employees deletion_policy
    event_handling timezone : JSON) : JSON :=
  JObject
    [("calendars", calendars); ("shifts", shifts); ("employees", employees);
     ("deletion_policy", deletion_policy);
     ("event_handling", event_handling); ("timezone", timezone)].

Definition validConfig_calendars : JSON :=
  JArray [JObject [("calendar_id", JString "jane.doe@example.com");
                   ("employees", JArray [JString "Jane Doe"])]].

Definition validConfig_employees : JSON :=
  JObject [("Jane Doe", JObject [("color", JString "#FF5733")])].

Definition validConfig : JSON :=
  config_of validConfig_calendars validConfig_shifts validConfig_employees
    (JString "full_sync") validConfig_event_handling
    (JString "Europe/Madrid").

(** [delete obj[key]] *)
Definition delete (key : string) (o : JSON) : JSON :=
  match o with
  | JObject members =>
      JObject (filter (fun entry => negb (fst entry =? key)) members)
  | _ => o
  end.

(** A host whose file system holds one file, which parses to [config],
    and whose time zone database knows Europe/Madrid and UTC. *)
Definition host_serving (config : JSON) : Host :=
  {| timeZoneSupported := fun tz => (tz =? "Europe/Madrid") || (tz =? "UTC");
     readFile := fun _ => Fulfilled "(the text of the file)";
     JSON_parse := fun _ => Parsed config |}.

(** The mocks of the two failing loads of the test suite. *)
Definition host_file_not_found : Host :=
  {| timeZoneSupported := fun tz => (tz =? "Europe/Madrid") || (tz =? "UTC");
     readFile := fun _ => Rejected "File not found";
     JSON_parse := fun _ => Malformed "Unexpected end of JSON input" |}.

Definition host_invalid_json : Host :=
  {| timeZoneSupported := fun tz => (tz =? "Europe/Madrid") || (tz =? "UTC");
     readFile := fun _ => Fulfilled "{ invalid: json }";
     JSON_parse := fun _ => Malformed "Expected property name or '}' in JSON" |}.

(** The host with a time zone database that knows every identifier. *)
Definition with_every_time_zone (h : Host) : Host :=
  {| timeZoneSupported := fun _ => true;
     readFile := readFile h;
     JSON_parse := JSON_parse h |}.

(* ================================================================== *)
(** * A valid configuration, as the data model words it                *)
(* ================================================================== *)

(** [calendar_id] is a string and [employees] a sequence. *)
Definition CalendarEntry (calendar : JSON) : Prop :=
  (exists id, member calendar "calendar_id" = Some (JString id)) /\
  (exists names, member calendar "employees" = Some (JArray names)).

(** [start] and [end] are times of day [HH:MM]. *)
Definition ShiftPeriod (period : JSON) : Prop :=
  exists start end_,
    member period "start" = Some (JString start) /\
    member period "end" = Some (JString end_) /\
    HHMM start /\ HHMM end_.

(** [label] and [color] are strings and [period] is a period. *)
Definition ShiftConfig (shift : JSON) : Prop :=
  (exists label, member shift "label" = Some (JString label)) /\
  (exists color, member shift "color" = Some (JString color)) /\
  (exists members, member shift "period" = Some (JObject members) /\
                   ShiftPeriod (JObject members)).

(** A policy field holds one of its literals. *)
Definition policy_in (event_handling : JSON) (field : string)
    (allowedValues : list string) : Prop :=
  exists s, member event_handling field = Some (JString s) /\
            In s allowedValues.

Definition EventHandlingConfig (event_handling : JSON) : Prop :=
  policy_in event_handling "duplicate_shifts" duplicate_shifts_values /\
  policy_in event_handling "overlapping_shifts" overlapping_shifts_values /\
  policy_in event_handling "api_failures" api_failures_values /\
  policy_in event_handling "partial_updates" partial_updates_values /\
  policy_in event_handling "missing_employees" missing_employees_values /\
  policy_in event_handling "extra_employees" extra_employees_values.

(** The document satisfies every validation rule: top-level shape,
    calendar and shift shapes, time format, the seven enums, and a time
    zone the host knows. *)
Definition Configuration (h : Host) (config : JSON) : Prop :=
  (exists calendars, member config "calendars" = Some (JArray calendars) /\
                     Forall CalendarEntry calendars) /\
  (exists shifts, member config "shifts" = Some (JObject shifts) /\
                  Forall (fun entry => ShiftConfig (snd entry)) shifts) /\
  (exists employees, member config "employees" = Some (JObject employees)) /\
  (exists policy, member config "deletion_policy" = Some (JString policy) /\
                  In policy DeletionPolicy) /\
  (exists members, member config "event_handling" = Some (JObject members) /\
                   EventHandlingConfig (JObject members)) /\
  (exists tz, member config "timezone" = Some (JString tz) /\
              timeZoneSupported h tz = true).

(** The valid document of the test suite with members that no interface
    declares: at the top level, in a calendar, in a shift and in a
    period. *)
Definition validConfig_with_extras : JSON :=
  JObject
    [("$schema", JString "./calendarify.schema.json");
     ("calendars",
      JArray [JObject [("calendar_id", JString "jane.doe@example.com");
                       ("employees", JArray [JString "Jane Doe"]);
                       ("note", JNull)]]);
     ("shifts",
      JObject
        [("M", JObject [("label", JString "Morning Shift");
                        ("color", JString "#FFD700");
                        ("period", JObject [("start", JString "08:00");
                                            ("end", JString "16:00");
                                            ("break", JNumber 0x403e000000000000)]);
                        ("paid", JBool true)])]);
     ("employees", validConfig_employees);
     ("deletion_policy", JString "full_sync");
     ("event_handling", validConfig_event_handling);
     ("timezone", JString "Europe/Madrid")].

(* ================================================================== *)
(** * Documents that differ in their employees only                    *)
(* ================================================================== *)

(** Two calendar entries that differ at most in the elements of their
    [employees] arrays. *)
Definition same_calendar_but_employees (calendar1 calendar2 : JSON) : Prop :=
  (exists names1 names2,
     member calendar1 "employees" = Some (JArray names1) /\
     member calendar2 "employees" = Some (JArray names2)) /\
  member calendar1 "calendar_id" = member calendar2 "calendar_id".

(** Two documents that differ at most in the members of the top-level
    [employees] mapping and in the elements of the [employees] arrays of
    their calendars. *)
Definition same_but_employees (config1 config2 : JSON) : Prop :=
  (exists employees1 employees2,
     member config1 "employees" = Some (JObject employees1) /\
     member config2 "employees" = Some (JObject employees2)) /\
  (exists calendars1 calendars2,
     member config1 "calendars" = Some (JArray calendars1) /\
     member config2 "calendars" = Some (JArray calendars2) /\
     Forall2 same_calendar_but_employees calendars1 calendars2) /\
  (forall field, field <> "employees" -> field <> "calendars" ->
                 member config1 field = member config2 field).

(** The valid document of the test suite with employees of every shape. *)
Definition validConfig_odd_employees : JSON :=
  config_of
    (JArray [JObject [("calendar_id", JString "jane.doe@example.com");
                      ("employees",
                       JArray [JNumber 0x4045000000000000; JNull; JObject [];
                               JArray []])]])
    validConfig_shifts
    (JObject [("Jane Doe", JNumber 0x4045000000000000); ("John Doe", JNull);
              ("", JArray [JString "no color"])])
    (JString "full_sync") validConfig_event_handling
    (JString "Europe/Madrid").

From Stdlib Require Import Permutation.

(* ================================================================== *)
(** * Further notions for the properties of the checkers               *)
(* ================================================================== *)

(** A value is of the kind a tag names: a string, an array, an object
    that is no array.  A tag other than these three names every value. *)
Definition has_kind (type : string) (v : JSON) : Prop :=
  (type = "string" -> exists s, v = JString s) /\
  (type = "array" -> exists elements, v = JArray elements) /\
  (type = "object" -> exists members, v = JObject members).

(** A value that the field checker turns away before it looks at any
    field: [undefined], [null], a boolean, a number or a string. *)
Definition not_an_object (obj : value) : Prop :=
  (forall members, obj <> Some (JObject members)) /\
  (forall elements, obj <> Some (JArray elements)).

(** Every message that the check of the calendar at [index] can give. *)
Definition calendar_errors (index : nat) : list string :=
  let name := "calendars[" ++ index_to_string index ++ "]" in
  [ name ++ " must be an object";
    "Missing required field 'calendar_id' in " ++ name;
    "Field 'calendar_id' in " ++ name ++ " must be a string";
    "Missing required field 'employees' in " ++ name;
    "Field 'employees' in " ++ name ++ " must be an array" ].

(** Every message that the checks of the shift under [key] can give. *)
Definition shift_errors (key : string) : list string :=
  let name := "shifts." ++ key in
  let period := "shifts." ++ key ++ ".period" in
  [ name ++ " must be an object";
    "Missing required field 'label' in " ++ name;
    "Field 'label' in " ++ name ++ " must be a string";
    "Missing required field 'color' in " ++ name;
    "Field 'color' in " ++ name ++ " must be a string";
    "Missing required field 'period' in " ++ name;
    "Field 'period' in " ++ name ++ " must be an object";
    "Missing required field 'start' in " ++ period;
    "Field 'start' in " ++ period ++ " must be a string";
    "Missing required field 'end' in " ++ period;
    "Field 'end' in " ++ period ++ " must be a string";
    "Invalid time format for shifts." ++ key ++
      ".period.start. Must be HH:MM format.";
    "Invalid time format for shifts." ++ key ++
      ".period.end. Must be HH:MM format." ].

(** The two shifts of the valid document of the test suite. *)
Definition shift_M : JSON :=
  JObject [("label", JString "Morning Shift"); ("color", JString "#FFD700");
           ("period", JObject [("start", JString "08:00");
                               ("end", JString "16:00")])].

Definition shift_N : JSON :=
  JObject [("label", JString "Night Shift"); ("color", JString "#483D8B");
           ("period", JObject [("start", JString "22:00");
                               ("end", JString "06:00")])].

(** The members of the valid document of the test suite around a given
    [shifts] member. *)
Definition validConfig_members_with (shifts : JSON)
  : list (string * JSON) :=
  [("calendars", validConfig_calendars); ("shifts", shifts);
   ("employees", validConfig_employees);
   ("deletion_policy", JString "full_sync");
   ("event_handling", validConfig_event_handling);
   ("timezone", JString "Europe/Madrid")].
(* ================================================================== *)
(** * Lemmas on the monad and the loops                               *)
(* ================================================================== *)

Lemma bind_Ok_iff {A B} (c : result A) (k : A -> result B) (b : B) :
  bind c k = Ok b <-> exists a, c = Ok a /\ k a = Ok b.
Proof.
  destruct c as [a|e]; simpl; split.
  - intros H; exists a; auto.
  - intros (a' & Ha & Hk); inversion Ha; subst; exact Hk.
  - discriminate.
  - intros (a' & Ha & _); discriminate.
Qed.

Lemma bind_unit_Ok_iff {B} (c : result unit) (k : unit -> result B) (b : B) :
  bind c k = Ok b <-> c = Ok tt /\ k tt = Ok b.
Proof.
  rewrite bind_Ok_iff; split.
  - intros ([] & Hc & Hk); auto.
  - intros [Hc Hk]; exists tt; auto.
Qed.

Lemma for_of_app {A} (xs ys : list A) (body : A -> result unit) :
  for_of (xs ++ ys) body = (for_of xs body ;; for_of ys body).
Proof.
  induction xs as [|x xs IH]; simpl; [reflexivity|].
  destruct (body x) as [[]|e]; simpl; [exact IH | reflexivity].
Qed.

Lemma for_of_Ok_iff {A} (xs : list A) (body : A -> result unit) :
  for_of xs body = Ok tt <-> Forall (fun x => body x = Ok tt) xs.
Proof.
  induction xs as [|x xs IH]; simpl.
  - split; auto.
  - rewrite bind_unit_Ok_iff, IH; split.
    + intros [Hx Hxs]; constructor; assumption.
    + intros H; inversion H; subst; auto.
Qed.

Lemma for_of_ext {A} (xs : list A) (body body' : A -> result unit) :
  (forall x, In x xs -> body x = body' x) ->
  for_of xs body = for_of xs body'.
Proof.
  induction xs as [|x xs IH]; simpl; intros H; [reflexivity|].
  rewrite (H x) by auto. rewrite IH by auto. reflexivity.
Qed.

(** A loop whose body is a test is the search for the first failure. *)
Lemma for_of_first_failure {A} (ok : A -> bool) (err : A -> exn)
    (xs : list A) :
  for_of xs (fun x => if ok x then Ok tt else Throw (err x))
  = first_failure ok err xs.
Proof.
  unfold first_failure.
  induction xs as [|x xs IH]; simpl; [reflexivity|].
  destruct (ok x); simpl; [exact IH | reflexivity].
Qed.

Lemma first_failure_Ok_iff {A} (ok : A -> bool) (err : A -> exn) xs :
  first_failure ok err xs = Ok tt <-> Forall (fun x => ok x = true) xs.
Proof.
  rewrite <- for_of_first_failure, for_of_Ok_iff.
  split; intros H; eapply Forall_impl; try exact H; simpl; intros x;
    destruct (ok x); auto; discriminate.
Qed.

Lemma first_failure_at {A} (ok : A -> bool) (err : A -> exn) pre x post :
  Forall (fun y => ok y = true) pre -> ok x = false ->
  first_failure ok err (pre ++ x :: post) = Throw (err x).
Proof.
  intros Hpre Hx. unfold first_failure.
  induction Hpre as [|y pre Hy _ IH]; simpl.
  - rewrite Hx; reflexivity.
  - rewrite Hy; simpl; exact IH.
Qed.

Lemma is_object_cases (obj : value) :
  is_object obj = true <->
  (exists ms, obj = Some (JObject ms)) \/ (exists es, obj = Some (JArray es)).
Proof.
  unfold is_object; split.
  - destruct obj as [[| | | | es | ms]|]; simpl; intros H;
      try discriminate; eauto.
    all: rewrite andb_false_r in H; discriminate.
  - intros [[ms ->]|[es ->]]; reflexivity.
Qed.

(** One turn of the loop of [validateObjectFields]. *)
Lemma field_step (obj : value) (objName : string) (declared : string * string) :
  is_object obj = true ->
  (let '(field, type) := declared in
   present <- has_property field obj ;;
   if negb present then
     Throw (ConfigValidationError
       ("Missing required field '" ++ field ++ "' in " ++ objName))
   else
     value <- get obj field ;;
     if (type =? "string") && negb (typeof value =? "string") then
       Throw (ConfigValidationError
         ("Field '" ++ field ++ "' in " ++ objName ++ " must be a string"))
     else if (type =? "array") && negb (Array_isArray value) then
       Throw (ConfigValidationError
         ("Field '" ++ field ++ "' in " ++ objName ++ " must be an array"))
     else if (type =? "object") &&
             (negb (truthy value) || negb (typeof value =? "object")
              || Array_isArray value) then
       Throw (ConfigValidationError
         ("Field '" ++ field ++ "' in " ++ objName ++ " must be an object"))
     else Ok tt)
  = if field_ok obj declared then Ok tt
    else Throw (ConfigValidationError (field_error obj objName declared)).
Proof.
  intros Hobj. destruct declared as [field type].
  apply is_object_cases in Hobj.
  assert (Hhas : has_property field obj
                 = Ok (match own obj field with Some _ => true | None => false end))
    by (destruct Hobj as [[ms ->]|[es ->]]; reflexivity).
  assert (Hget : get obj field = Ok (own obj field))
    by (destruct Hobj as [[ms ->]|[es ->]]; reflexivity).
  rewrite Hhas. unfold field_ok, field_error; cbn [fst snd bind].
  destruct (own obj field) as [v|] eqn:Hown; cbn [negb]; [|reflexivity].
  rewrite Hget; cbn [bind].
  unfold kind_matches, kind_phrase.
  destruct (String.eqb_spec type "string") as [->|_]; cbn [andb].
  { destruct (typeof (Some v) =? "string"); reflexivity. }
  destruct (String.eqb_spec type "array") as [->|_]; cbn [andb].
  { destruct (Array_isArray (Some v)); reflexivity. }
  destruct (String.eqb_spec type "object") as [->|_]; cbn [andb];
    [|reflexivity].
  destruct (truthy (Some v)), (typeof (Some v) =? "object"),
    (Array_isArray (Some v)); reflexivity.
Qed.

(** [validateObjectFields] is: the precondition, then the search for the
    first declared field that is not in order. *)
Lemma validateObjectFields_spec (obj : value) fields (objName : string) :
  validateObjectFields obj fields objName
  = if is_object obj then
      first_failure (field_ok obj)
        (fun declared =>
           ConfigValidationError (field_error obj objName declared))
        fields
    else Throw (ConfigValidationError (objName ++ " must be an object")).
Proof.
  unfold validateObjectFields.
  rewrite <- negb_andb. fold (is_object obj).
  destruct (is_object obj) eqn:Hobj; simpl; [|reflexivity].
  rewrite <- for_of_first_failure.
  apply for_of_ext; intros [field type] _.
  exact (field_step obj objName (field, type) Hobj).
Qed.

(* ================================================================== *)
(** * The names that are looked up                                     *)
(* ================================================================== *)

(** No declared field name is intrinsic to objects or arrays, or an
    array index: on these names [in] and member access see the members
    of the JSON text and nothing else. *)
Lemma declared_names_are_plain :
  forallb (fun name => negb (includes intrinsic_names name)
                       && negb (starts_with_digit name))
    declared_names = true.
Proof. vm_compute. reflexivity. Qed.

(* ================================================================== *)
(** * The field checker                                                *)
(* ================================================================== *)

Lemma validateObjectFields_Ok_iff (obj : value) fields (objName : string) :
  validateObjectFields obj fields objName = Ok tt <->
  is_object obj = true /\ Forall (fun d => field_ok obj d = true) fields.
Proof.
  rewrite validateObjectFields_spec.
  destruct (is_object obj).
  - rewrite first_failure_Ok_iff. intuition.
  - split; [discriminate | intros [? _]; discriminate].
Qed.

(** Whatever [validateObjectFields] throws is a [ConfigValidationError]. *)
Lemma validateObjectFields_throws (obj : value) fields objName e :
  validateObjectFields obj fields objName = Throw e ->
  instanceof_ConfigValidationError e = true.
Proof.
  rewrite validateObjectFields_spec. unfold first_failure.
  destruct (is_object obj); [destruct (find _ fields)|];
    intros H; inversion H; reflexivity.
Qed.

(** C4, as amended: on a value that passes the object precondition, the
    field checker goes through the declared fields (of plain names) in
    the order of the field spec and fails on the first one that is not in
    order: with
    "Missing required field '<field>' in <contextLabel>" when it is
    absent, and, when it is present but of another kind, with
    "Field '<field>' in <contextLabel> must be a string", "... must be an
    array" or "... must be an object" according to the declared kind. *)
Theorem validateObjectFields_first_offending_field
    (obj : value) (pre post : list (string * string))
    (field type objName : string) :
  Forall (fun declared => plain_name (fst declared) = true)
    (pre ++ [(field, type)]) ->
  is_object obj = true ->
  Forall (fun declared => field_ok obj declared = true) pre ->
  (own obj field = undefined ->
   validateObjectFields obj (pre ++ (field, type) :: post) objName
   = Throw (ConfigValidationError
       ("Missing required field '" ++ field ++ "' in " ++ objName)))
  /\
  (forall v, own obj field = Some v -> kind_matches type (Some v) = false ->
   In type ["string"; "array"; "object"] /\
   validateObjectFields obj (pre ++ (field, type) :: post) objName
   = Throw (ConfigValidationError
       ("Field '" ++ field ++ "' in " ++ objName ++ " must be " ++
        (if type =? "string" then "a string"
         else if type =? "array" then "an array"
         else "an object")))).
Proof.
  intros _ Hobj Hpre. rewrite validateObjectFields_spec, Hobj. split.
  - intros Habsent.
    rewrite first_failure_at; auto.
    + unfold field_error; cbn [fst snd]. rewrite Habsent. reflexivity.
    + unfold field_ok; cbn [fst]. rewrite Habsent. reflexivity.
  - intros v Hv Hkind. split.
    + unfold kind_matches in Hkind.
      destruct (String.eqb_spec type "string") as [->|_]; [simpl; auto|].
      destruct (String.eqb_spec type "array") as [->|_]; [simpl; auto|].
      destruct (String.eqb_spec type "object") as [->|_]; [simpl; auto|].
      discriminate.
    + rewrite first_failure_at; auto.
      * unfold field_error; cbn [fst snd]. rewrite Hv. reflexivity.
      * unfold field_ok; cbn [fst snd]. rewrite Hv. exact Hkind.
Qed.

(** A mistyped second field, after a first field that is in order. *)
Lemma validateObjectFields_first_offending_field_witness :
  validateObjectFields
    (Some (JObject [("calendars", JArray []); ("shifts", JArray [])]))
    ([("calendars", "array")] ++ ("shifts", "object")
       :: [("employees", "object")])
    "config"
  = Throw (ConfigValidationError "Field 'shifts' in config must be an object").
Proof.
  refine (proj2 (proj2
    (validateObjectFields_first_offending_field
       (Some (JObject [("calendars", JArray []); ("shifts", JArray [])]))
       [("calendars", "array")] [("employees", "object")]
       "shifts" "object" "config" _ _ _) (JArray []) _ _)).
  - repeat constructor.
  - reflexivity.
  - repeat constructor.
  - reflexivity.
  - reflexivity.
Defined.

(** C4, as stated, fails: a present field that is not the declared array
    is not reported as "... must be a array". *)
Lemma validateObjectFields_kind_message_counterexample :
  own (Some (JObject [("calendars", JString "x")])) "calendars"
    = Some (JString "x") /\
  Array_isArray (Some (JString "x")) = false /\
  validateObjectFields (Some (JObject [("calendars", JString "x")]))
    [("calendars", "array")] "config"
  <> Throw (ConfigValidationError
       (kind_message_as_specified "calendars" "config" "array")).
Proof.
  split; [reflexivity|]. split; [reflexivity|].
  vm_compute. discriminate.
Qed.

(* ================================================================== *)
(** * The enum checker                                                 *)
(* ================================================================== *)

Lemma includes_In (allowedValues : list string) (s : string) :
  includes allowedValues s = true <-> In s allowedValues.
Proof.
  unfold includes. rewrite existsb_exists. split.
  - intros (x & Hin & Heq). apply String.eqb_eq in Heq. subst. exact Hin.
  - intros Hin. exists s. split; [exact Hin | apply String.eqb_refl].
Qed.

Lemma validateEnum_spec (value : value) allowedValues fieldName :
  validateEnum value allowedValues fieldName
  = if enum_member value allowedValues then Ok tt
    else Throw (ConfigValidationError
           ("Invalid value for '" ++ fieldName ++ "'. Must be one of: " ++
            String.concat ", " allowedValues)).
Proof.
  unfold validateEnum, enum_member.
  destruct value as [[| | | s | |]|]; try reflexivity.
  cbn [typeof]. destruct (includes allowedValues s); reflexivity.
Qed.

(* ================================================================== *)
(** * The time format                                                  *)
(* ================================================================== *)

Ltac split_classes :=
  repeat match goal with
         | |- context [in_class ?lo ?hi ?c] =>
             destruct (in_class lo hi c);
             cbn [leftovers flat_map app existsb andb orb]
         end.

(** On five characters and a rest, [timeRegex] tests each character
    against its class and the rest against the end of the input. *)
Lemma timeRegex_chars (a b c d e : ascii) (rest : string) :
  RegExp_test timeRegex
    (String a (String b (String c (String d (String e rest)))))
  = ((in_class "0" "1" a && in_class "0" "9" b
      || in_class "2" "2" a && in_class "0" "3" b)
     && in_class ":" ":" c && in_class "0" "5" d && in_class "0" "9" e
     && ("" =? rest)).
Proof.
  unfold RegExp_test, timeRegex, Lit.
  destruct (in_class "0" "1" a) eqn:E1, (in_class "0" "9" b) eqn:E2,
    (in_class "2" "2" a) eqn:E3, (in_class "0" "3" b) eqn:E4,
    (in_class ":" ":" c) eqn:E5, (in_class "0" "5" d) eqn:E6,
    (in_class "0" "9" e) eqn:E7.
  all: repeat progress
         (cbn [leftovers flat_map app existsb andb orb];
          rewrite ?E1, ?E2, ?E3, ?E4, ?E5, ?E6, ?E7).
  all: destruct ("" =? rest); reflexivity.
Qed.

(** A string that [timeRegex] accepts has exactly five characters. *)
Lemma timeRegex_length (s : string) :
  RegExp_test timeRegex s = true ->
  exists a b c d e,
    s = String a (String b (String c (String d (String e "")))).
Proof.
  destruct s as [|a [|b [|c [|d [|e rest]]]]].
  1-5: unfold RegExp_test, timeRegex, Lit;
       cbn [leftovers flat_map app existsb andb orb];
       split_classes; discriminate.
  rewrite timeRegex_chars. intros H.
  destruct rest as [|x rest]; [eauto 6|].
  cbn [String.eqb] in H. rewrite andb_false_r in H. discriminate.
Qed.

Ltac find_digit :=
  first [ exists 0; split; [lia | reflexivity]
        | exists 1; split; [lia | reflexivity]
        | exists 2; split; [lia | reflexivity]
        | exists 3; split; [lia | reflexivity]
        | exists 4; split; [lia | reflexivity]
        | exists 5; split; [lia | reflexivity]
        | exists 6; split; [lia | reflexivity]
        | exists 7; split; [lia | reflexivity]
        | exists 8; split; [lia | reflexivity]
        | exists 9; split; [lia | reflexivity] ].

Ltac by_cases_on_char c :=
  destruct c as [[] [] [] [] [] [] [] []];
  let H := fresh in
  intros H; vm_compute in H; try discriminate H.

(** The characters of each class of [timeRegex]. *)
Lemma class_0_9 (c : ascii) :
  in_class "0" "9" c = true -> exists n, n < 10 /\ c = digit n.
Proof. by_cases_on_char c; find_digit. Qed.

Lemma class_0_5 (c : ascii) :
  in_class "0" "5" c = true -> exists n, n < 6 /\ c = digit n.
Proof. by_cases_on_char c; find_digit. Qed.

Lemma class_0_3 (c : ascii) :
  in_class "0" "3" c = true -> exists n, n < 4 /\ c = digit n.
Proof. by_cases_on_char c; find_digit. Qed.

Lemma class_0_1 (c : ascii) :
  in_class "0" "1" c = true -> exists n, n < 2 /\ c = digit n.
Proof. by_cases_on_char c; find_digit. Qed.

Lemma class_2 (c : ascii) : in_class "2" "2" c = true -> c = digit 2.
Proof. by_cases_on_char c; reflexivity. Qed.

Lemma class_colon (c : ascii) : in_class ":" ":" c = true -> c = ":"%char.
Proof. by_cases_on_char c; reflexivity. Qed.

Lemma two_digits_tens_units (tens units : nat) :
  units < 10 ->
  two_digits (10 * tens + units)
  = String (digit tens) (String (digit units) "").
Proof.
  intros H. unfold two_digits.
  replace ((10 * tens + units) / 10) with tens.
  - replace ((10 * tens + units) mod 10) with units; [reflexivity|].
    rewrite Nat.add_comm, Nat.mul_comm, Nat.Div0.mod_add.
    symmetry. apply Nat.mod_small, H.
  - rewrite Nat.mul_comm, Nat.div_add_l by discriminate.
    rewrite Nat.div_small by exact H. lia.
Qed.

Lemma hour_chars (hh : nat) :
  hh < 24 ->
  (in_class "0" "1" (digit (hh / 10)) && in_class "0" "9" (digit (hh mod 10))
   || in_class "2" "2" (digit (hh / 10))
      && in_class "0" "3" (digit (hh mod 10))) = true.
Proof.
  intros H. do 24 (destruct hh as [|hh]; [reflexivity|]). lia.
Qed.

Lemma minute_chars (mm : nat) :
  mm < 60 ->
  in_class "0" "5" (digit (mm / 10)) && in_class "0" "9" (digit (mm mod 10))
  = true.
Proof.
  intros H. do 60 (destruct mm as [|mm]; [reflexivity|]). lia.
Qed.

(** [timeRegex] accepts exactly the times of day written [HH:MM]. *)
Lemma timeRegex_HHMM (s : string) :
  RegExp_test timeRegex s = true <-> HHMM s.
Proof.
  split.
  - intros H. destruct (timeRegex_length s H) as (a & b & c & d & e & ->).
    rewrite timeRegex_chars in H.
    repeat (apply andb_true_iff in H; destruct H as [H ?]).
    match goal with Hc : in_class ":" ":" c = true |- _ =>
      apply class_colon in Hc; subst c end.
    match goal with Hd : in_class "0" "5" d = true |- _ =>
      apply class_0_5 in Hd; destruct Hd as (nd & Hnd & ->) end.
    match goal with He : in_class "0" "9" e = true |- _ =>
      apply class_0_9 in He; destruct He as (ne & Hne & ->) end.
    assert (Hh : exists hh, hh < 24 /\
              String a (String b "") = two_digits hh).
    { apply orb_true_iff in H. destruct H as [H|H];
        apply andb_true_iff in H; destruct H as [Ha Hb].
      - apply class_0_1 in Ha. destruct Ha as (na & Hna & ->).
        apply class_0_9 in Hb. destruct Hb as (nb & Hnb & ->).
        exists (10 * na + nb). split; [lia|].
        symmetry. apply two_digits_tens_units, Hnb.
      - apply class_2 in Ha. subst a.
        apply class_0_3 in Hb. destruct Hb as (nb & Hnb & ->).
        exists (10 * 2 + nb). split; [lia|].
        symmetry. apply two_digits_tens_units. lia. }
    destruct Hh as (hh & Hhh & Heq).
    exists hh, (10 * nd + ne). split; [exact Hhh|]. split; [lia|].
    rewrite two_digits_tens_units by exact Hne.
    rewrite <- Heq. reflexivity.
  - intros (hh & mm & Hhh & Hmm & ->).
    unfold two_digits. cbn [String.append].
    rewrite timeRegex_chars.
    pose proof (hour_chars hh Hhh) as H1.
    pose proof (minute_chars mm Hmm) as H2.
    apply andb_true_iff in H2. destruct H2 as [H2 H3].
    rewrite H1, H2, H3. reflexivity.
Qed.

(* ================================================================== *)
(** * Shifts                                                           *)
(* ================================================================== *)

Lemma field_ok_intro (obj : value) (field type : string) (v : JSON) :
  own obj field = Some v -> kind_matches type (Some v) = true ->
  field_ok obj (field, type) = true.
Proof. intros Hown Hkind. unfold field_ok; cbn [fst snd]. rewrite Hown. exact Hkind. Qed.

Lemma member_Some_object (o : JSON) (field : string) (v : JSON) :
  member o field = Some v -> exists ms, o = JObject ms.
Proof. destruct o; try discriminate; eauto. Qed.

(** A shift of the right shape: only the two time tests remain. *)
Lemma validateShift_shaped (key : string) (shift : JSON)
    (label color start end_ : string) (period : list (string * JSON)) :
  member shift "label" = Some (JString label) ->
  member shift "color" = Some (JString color) ->
  member shift "period" = Some (JObject period) ->
  lookup "start" period = Some (JString start) ->
  lookup "end" period = Some (JString end_) ->
  validateShift (key, shift)
  = if negb (RegExp_test timeRegex start) then
      Throw (ConfigValidationError
        ("Invalid time format for shifts." ++ key ++
         ".period.start. Must be HH:MM format."))
    else if negb (RegExp_test timeRegex end_) then
      Throw (ConfigValidationError
        ("Invalid time format for shifts." ++ key ++
         ".period.end. Must be HH:MM format."))
    else Ok tt.
Proof.
  intros Hl Hc Hp Hs He.
  destruct (member_Some_object _ _ _ Hl) as [ms ->].
  unfold validateShift.
  assert (H1 : validateObjectFields (Some (JObject ms)) IShiftConfig_fields
                 ("shifts." ++ key) = Ok tt).
  { apply validateObjectFields_Ok_iff. split; [reflexivity|].
    repeat constructor; eapply field_ok_intro; eauto. }
  rewrite H1. cbn [bind get]. rewrite Hp.
  assert (H2 : validateObjectFields (Some (JObject period))
                 IShiftPeriod_fields ("shifts." ++ key ++ ".period") = Ok tt).
  { apply validateObjectFields_Ok_iff. split; [reflexivity|].
    repeat constructor; eapply field_ok_intro; cbn [own member]; eauto. }
  rewrite H2. cbn [bind get member]. rewrite Hs, He. cbn [bind as_string].
  destruct (RegExp_test timeRegex start); cbn [negb bind]; reflexivity.
Qed.

(** C5: a period is accepted exactly when [start] and [end] each match
    [timeRegex]; a [start] that does not match is reported as "Invalid
    time format for shifts.<key>.period.start", else an [end] that does
    not match as "... period.end"; 08:00, 23:59, 00:00 match and 8:00,
    24:00, 12:60, 8:0 do not; nothing relates [start] to [end], so 22:00
    to 06:00 is accepted. *)
Theorem validateShift_period_times (key : string) (shift : JSON)
    (label color start end_ : string) (period : list (string * JSON)) :
  member shift "label" = Some (JString label) ->
  member shift "color" = Some (JString color) ->
  member shift "period" = Some (JObject period) ->
  lookup "start" period = Some (JString start) ->
  lookup "end" period = Some (JString end_) ->
  (validateShift (key, shift) = Ok tt <->
   RegExp_test timeRegex start = true /\ RegExp_test timeRegex end_ = true)
  /\
  (RegExp_test timeRegex start = false ->
   validateShift (key, shift)
   = Throw (ConfigValidationError
       ("Invalid time format for shifts." ++ key ++ ".period.start" ++
        ". Must be HH:MM format.")))
  /\
  (RegExp_test timeRegex start = true ->
   RegExp_test timeRegex end_ = false ->
   validateShift (key, shift)
   = Throw (ConfigValidationError
       ("Invalid time format for shifts." ++ key ++ ".period.end" ++
        ". Must be HH:MM format.")))
  /\
  (forall s, RegExp_test timeRegex s = true <-> HHMM s)
  /\
  map (RegExp_test timeRegex)
    ["08:00"; "23:59"; "00:00"; "22:00"; "06:00";
     "8:00"; "24:00"; "12:60"; "8:0"]
  = [true; true; true; true; true; false; false; false; false].
Proof.
  intros Hl Hc Hp Hs He.
  rewrite (validateShift_shaped key shift label color start end_ period)
    by assumption.
  repeat split.
  - destruct (RegExp_test timeRegex start); [reflexivity|discriminate].
  - destruct (RegExp_test timeRegex start); [|discriminate].
    destruct (RegExp_test timeRegex end_); [reflexivity|discriminate].
  - intros [-> ->]. reflexivity.
  - intros ->. reflexivity.
  - intros -> ->. reflexivity.
  - apply timeRegex_HHMM.
  - apply timeRegex_HHMM.
Qed.

(** The night shift of the test suite: 22:00 to 06:00. *)
Lemma validateShift_period_times_witness :
  validateShift
    ("N", JObject [("label", JString "Night Shift");
                   ("color", JString "#483D8B");
                   ("period", JObject [("start", JString "22:00");
                                       ("end", JString "06:00")])])
  = Ok tt.
Proof.
  apply (proj1 (validateShift_period_times "N"
    (JObject [("label", JString "Night Shift");
              ("color", JString "#483D8B");
              ("period", JObject [("start", JString "22:00");
                                  ("end", JString "06:00")])])
    "Night Shift" "#483D8B" "22:00" "06:00"
    [("start", JString "22:00"); ("end", JString "06:00")]
    eq_refl eq_refl eq_refl eq_refl eq_refl)).
  split; reflexivity.
Defined.

(* ================================================================== *)
(** * The validator on a document of the right top-level shape         *)
(* ================================================================== *)

Lemma kind_string (v : JSON) :
  kind_matches "string" (Some v) = true <-> exists s, v = JString s.
Proof.
  split.
  - destruct v; try discriminate; eauto.
  - intros [s ->]; reflexivity.
Qed.

Lemma kind_array (v : JSON) :
  kind_matches "array" (Some v) = true <-> exists es, v = JArray es.
Proof.
  split.
  - destruct v; try discriminate; eauto.
  - intros [s ->]; reflexivity.
Qed.

Lemma kind_object (v : JSON) :
  kind_matches "object" (Some v) = true <-> exists ms, v = JObject ms.
Proof.
  split.
  - destruct v as [| b | n | s | es | ms]; try discriminate; eauto.
    + destruct b; discriminate.
    + unfold kind_matches; cbn -[truthy].
      rewrite andb_false_r; discriminate.
    + unfold kind_matches; cbn -[truthy].
      rewrite andb_false_r; discriminate.
  - intros [s ->]; reflexivity.
Qed.

Lemma field_ok_string (obj : value) (field : string) :
  field_ok obj (field, "string") = true <->
  exists s, own obj field = Some (JString s).
Proof.
  unfold field_ok; cbn [fst snd]. destruct (own obj field) as [v|].
  - rewrite kind_string. split; intros [s Hs]; exists s; congruence.
  - split; [discriminate | intros [s Hs]; discriminate].
Qed.

Lemma field_ok_array (obj : value) (field : string) :
  field_ok obj (field, "array") = true <->
  exists es, own obj field = Some (JArray es).
Proof.
  unfold field_ok; cbn [fst snd]. destruct (own obj field) as [v|].
  - rewrite kind_array. split; intros [s Hs]; exists s; congruence.
  - split; [discriminate | intros [s Hs]; discriminate].
Qed.

Lemma field_ok_object (obj : value) (field : string) :
  field_ok obj (field, "object") = true <->
  exists ms, own obj field = Some (JObject ms).
Proof.
  unfold field_ok; cbn [fst snd]. destruct (own obj field) as [v|].
  - rewrite kind_object. split; intros [s Hs]; exists s; congruence.
  - split; [discriminate | intros [s Hs]; discriminate].
Qed.

(** A value with a member is an object. *)
Lemma own_Some_object (obj : value) (field : string) (v : JSON) :
  own obj field = Some v -> exists ms, obj = Some (JObject ms).
Proof.
  destruct obj as [o|]; [|discriminate]. cbn [own]. intros H.
  destruct (member_Some_object _ _ _ H) as [ms ->]. eauto.
Qed.

Lemma top_level_Ok_iff (config : value) :
  validateObjectFields config IConfig_fields "config" = Ok tt <->
  exists cs ss es dp eh tz, top_level_shape config cs ss es dp eh tz.
Proof.
  rewrite validateObjectFields_Ok_iff. unfold IConfig_fields, top_level_shape.
  repeat rewrite Forall_cons_iff.
  rewrite !field_ok_array, !field_ok_object, !field_ok_string.
  split.
  - intros (_ & (cs & Hcs) & (ss & Hss) & (es & Hes) & (dp & Hdp)
              & (eh & Heh) & (tz & Htz) & _).
    exists cs, ss, es, dp, eh, tz. tauto.
  - intros (cs & ss & es & dp & eh & tz & Hcs & Hss & Hes & Hdp & Heh & Htz).
    split.
    + destruct (own_Some_object _ _ _ Hcs) as [ms ->]. reflexivity.
    + repeat split; eauto.
Qed.

Lemma validateConfig_shaped (h : Host) (config : value) cs ss es dp eh tz :
  top_level_shape config cs ss es dp eh tz ->
  validateConfig h config = validateConfig_checked h cs ss dp eh tz.
Proof.
  intros Hshape.
  assert (Htop : validateObjectFields config IConfig_fields "config" = Ok tt)
    by (apply top_level_Ok_iff; eauto 10).
  destruct Hshape as (Hcs & Hss & Hes & Hdp & Heh & Htz).
  destruct (own_Some_object _ _ _ Hcs) as [ms ->]. cbn [own member] in *.
  unfold validateConfig, validatePolicy. rewrite Htop.
  cbn [bind get member]. rewrite Hcs, Hss, Hdp, Heh, Htz.
  cbn [bind get member Array_entries Object_entries as_string].
  unfold Intl_DateTimeFormat, validateConfig_checked.
  destruct (timeZoneSupported h tz); cbn [try_catch]; reflexivity.
Qed.

(* ================================================================== *)
(** * The order of the checks                                          *)
(* ================================================================== *)

Lemma first_throw_cons (r : result unit) (rest : list (result unit)) :
  first_throw (r :: rest) = (r ;; first_throw rest).
Proof. destruct r as [[]|e]; reflexivity. Qed.

Lemma first_throw_app (l1 l2 : list (result unit)) :
  first_throw (l1 ++ l2) = (first_throw l1 ;; first_throw l2).
Proof.
  induction l1 as [|r l1 IH]; [reflexivity|].
  cbn [app]. rewrite !first_throw_cons, IH.
  destruct r as [[]|e]; reflexivity.
Qed.

Lemma first_throw_map {A} (f : A -> result unit) (xs : list A) :
  first_throw (map f xs) = for_of xs f.
Proof.
  induction xs as [|x xs IH]; [reflexivity|].
  cbn [map for_of]. rewrite first_throw_cons, IH. reflexivity.
Qed.

Lemma first_throw_flat_map {A} (g : A -> list (result unit)) (xs : list A) :
  first_throw (flat_map g xs) = for_of xs (fun x => first_throw (g x)).
Proof.
  induction xs as [|x xs IH]; [reflexivity|].
  cbn [flat_map for_of]. rewrite first_throw_app, IH. reflexivity.
Qed.

Lemma first_throw_at (pre post : list (result unit)) (e : exn) :
  Forall (fun r => r = Ok tt) pre ->
  first_throw (pre ++ Throw e :: post) = Throw e.
Proof.
  induction 1 as [|r pre Hr _ IH]; [reflexivity|].
  subst r. exact IH.
Qed.

Lemma first_throw_Ok_iff (outcomes : list (result unit)) :
  first_throw outcomes = Ok tt <-> Forall (fun r => r = Ok tt) outcomes.
Proof.
  induction outcomes as [|r rest IH]; cbn [first_throw].
  - split; auto.
  - destruct r as [[]|e].
    + rewrite IH. split; [auto | intros H; inversion H; auto].
    + split; [discriminate | intros H; inversion H; discriminate].
Qed.

Lemma first_throw_In (outcomes : list (result unit)) (e : exn) :
  first_throw outcomes = Throw e -> In (Throw e) outcomes.
Proof.
  induction outcomes as [|r rest IH]; cbn [first_throw]; [discriminate|].
  destruct r as [[]|e']; intros H.
  - right; auto.
  - left; exact H.
Qed.

(** The loop over [calendars.entries()] runs the calendar checks at the
    positions 0, 1, 2, ... in list order. *)
Lemma calendar_checks_from_entries (from : nat) (calendars : list JSON) :
  calendar_checks_from from calendars
  = map validateCalendar (combine (seq from (length calendars)) calendars).
Proof.
  revert from. induction calendars as [|calendar rest IH]; intros from;
    [reflexivity|].
  cbn [calendar_checks_from length seq combine map]. rewrite IH.
  reflexivity.
Qed.

Lemma calendar_checks_entries (calendars : list JSON) :
  calendar_checks_from 0 calendars
  = map validateCalendar (entries calendars).
Proof. apply calendar_checks_from_entries. Qed.

(** One shift: the loop body is the first failure of its four checks. *)
Lemma validateShift_checks (entry : string * JSON) :
  validateShift entry = first_throw (shift_checks entry).
Proof.
  destruct entry as [key shift]. unfold shift_checks.
  destruct (validateObjectFields (Some shift) IShiftConfig_fields
              ("shifts." ++ key)) as [[]|e] eqn:H1.
  2:{ unfold validateShift. rewrite H1. reflexivity. }
  pose proof H1 as Hshape.
  apply validateObjectFields_Ok_iff in Hshape. destruct Hshape as [_ Hf].
  unfold IShiftConfig_fields in Hf. repeat rewrite Forall_cons_iff in Hf.
  rewrite !field_ok_string, field_ok_object in Hf.
  destruct Hf as ((label & Hl) & (color & Hc) & (period & Hp) & _).
  destruct (own_Some_object _ _ _ Hl) as [ms Hms].
  injection Hms as ->. cbn [own member] in *.
  cbn [first_throw]. rewrite Hp.
  destruct (validateObjectFields (Some (JObject period)) IShiftPeriod_fields
              ("shifts." ++ key ++ ".period")) as [[]|e] eqn:H2.
  2:{ unfold validateShift. rewrite H1. cbn [bind get member].
      rewrite Hp, H2. reflexivity. }
  pose proof H2 as Hperiod.
  apply validateObjectFields_Ok_iff in Hperiod. destruct Hperiod as [_ Hf].
  unfold IShiftPeriod_fields in Hf. repeat rewrite Forall_cons_iff in Hf.
  rewrite !field_ok_string in Hf.
  destruct Hf as ((start & Hs) & (end_ & He) & _). cbn [own member] in *.
  rewrite (validateShift_shaped key (JObject ms) label color start end_ period)
    by assumption.
  unfold time_format_check. cbn [own member string_of].
  rewrite Hs, He. cbn [string_of first_throw].
  destruct (RegExp_test timeRegex start); cbn [negb first_throw];
    [|reflexivity].
  destruct (RegExp_test timeRegex end_); reflexivity.
Qed.

(** The validator is the first failure of the checks in their order. *)
Lemma validateConfig_first_throw (h : Host) (config : value) :
  validateConfig h config = first_throw (checks_in_order h config).
Proof.
  unfold checks_in_order.
  destruct (validateObjectFields config IConfig_fields "config")
    as [[]|e] eqn:Htop.
  2:{ unfold validateConfig. rewrite Htop. reflexivity. }
  apply top_level_Ok_iff in Htop.
  destruct Htop as (cs & ss & es & dp & eh & tz & Hshape).
  rewrite (validateConfig_shaped h config cs ss es dp eh tz Hshape).
  destruct Hshape as (Hcs & Hss & Hes & Hdp & Heh & Htz).
  unfold policy_check, timezone_check.
  rewrite Hcs, Hss, Hdp, Heh, Htz.
  cbn [elements_of members_of string_of own member app].
  rewrite !first_throw_cons. cbn [bind].
  rewrite calendar_checks_entries.
  rewrite first_throw_app, first_throw_map.
  rewrite first_throw_app, first_throw_flat_map.
  rewrite (for_of_ext ss (fun x => first_throw (shift_checks x)) validateShift)
    by (intros; symmetry; apply validateShift_checks).
  rewrite !first_throw_cons. cbn [first_throw].
  unfold validateConfig_checked.
  repeat match goal with
         | |- bind ?c _ = bind ?c _ =>
             destruct c as [[]|?]; cbn [bind]; [|reflexivity]
         end.
  destruct (timeZoneSupported h tz); reflexivity.
Qed.

(** C2: the validator runs its checks in the fixed order of
    [checks_in_order] (the top level, the deletion policy, the calendars
    at the positions 0, 1, 2, ..., the shifts, each by shape, period
    shape, start and end, the fields of [event_handling], its six
    policies, the time zone) and stops at the first violation: whatever
    defects come later, the error reported is that of the first check
    that fails. *)
Theorem validateConfig_reports_first_defect (h : Host) (config : value)
    (pre post : list (result unit)) (e : exn) :
  checks_in_order h config = (pre ++ Throw e :: post)%list ->
  Forall (fun r => r = Ok tt) pre ->
  validateConfig h config = Throw e /\
  validateConfig h config = first_throw (checks_in_order h config).
Proof.
  intros Hchecks Hpre. rewrite validateConfig_first_throw. split; [|reflexivity].
  rewrite Hchecks. apply first_throw_at, Hpre.
Qed.

(** Three defects at once (the deletion policy, the first calendar and
    the time zone): the deletion policy is reported.  With the deletion
    policy in order and [null] at the positions 1 and 2 of the
    calendars, a mistyped shift and an unknown time zone: position 1 is
    reported. *)
Lemma validateConfig_reports_first_defect_witness :
  validateConfig (host_serving validConfig)
    (Some (config_of (JArray [JNull]) validConfig_shifts
             validConfig_employees (JString "invalid_policy")
             validConfig_event_handling (JString "Invalid/Timezone")))
  = Throw (ConfigValidationError
      "Invalid value for 'deletion_policy'. Must be one of: full_sync, preserve_manual, append_only")
  /\
  validateConfig (host_serving validConfig)
    (Some (config_of
             (JArray [JObject [("calendar_id", JString "a");
                               ("employees", JArray [])];
                      JNull; JNull])
             (JObject [("M", JNull)])
             validConfig_employees (JString "full_sync")
             validConfig_event_handling (JString "Invalid/Timezone")))
  = Throw (ConfigValidationError "calendars[1] must be an object").
Proof.
  split.
  - eapply (fun post H1 H2 =>
      proj1 (validateConfig_reports_first_defect (host_serving validConfig)
        (Some (config_of (JArray [JNull]) validConfig_shifts
                 validConfig_employees (JString "invalid_policy")
                 validConfig_event_handling (JString "Invalid/Timezone")))
        [Ok tt] post _ H1 H2)).
    + vm_compute. reflexivity.
    + repeat constructor.
  - eapply (fun post H1 H2 =>
      proj1 (validateConfig_reports_first_defect (host_serving validConfig)
        (Some (config_of
                 (JArray [JObject [("calendar_id", JString "a");
                                   ("employees", JArray [])];
                          JNull; JNull])
                 (JObject [("M", JNull)])
                 validConfig_employees (JString "full_sync")
                 validConfig_event_handling (JString "Invalid/Timezone")))
        [Ok tt; Ok tt; Ok tt] post _ H1 H2)).
    + vm_compute. reflexivity.
    + repeat constructor.
Defined.

(* ================================================================== *)
(** * What the validator throws                                        *)
(* ================================================================== *)

Lemma validateEnum_throws (value : value) allowedValues fieldName e :
  validateEnum value allowedValues fieldName = Throw e ->
  instanceof_ConfigValidationError e = true.
Proof.
  rewrite validateEnum_spec. destruct (enum_member value allowedValues);
    intros H; inversion H; reflexivity.
Qed.

Lemma time_format_check_throws (key which : string) (period : value) e :
  time_format_check key which period = Throw e ->
  instanceof_ConfigValidationError e = true.
Proof.
  unfold time_format_check. destruct (RegExp_test _ _);
    intros H; inversion H; reflexivity.
Qed.

Lemma checks_throw_ConfigValidationError (h : Host) (config : value) e :
  In (Throw e) (checks_in_order h config) ->
  instanceof_ConfigValidationError e = true.
Proof.
  unfold checks_in_order. rewrite calendar_checks_entries.
  rewrite !in_app_iff, in_map_iff, in_flat_map.
  intros [H|[H|[H|H]]].
  - destruct H as [H|[H|[]]].
    + eapply validateObjectFields_throws, H.
    + eapply validateEnum_throws, H.
  - destruct H as ([index calendar] & H & _).
    eapply validateObjectFields_throws, H.
  - destruct H as ([key shift] & _ & H). cbn [shift_checks In] in H.
    destruct H as [H|[H|[H|[H|[]]]]].
    + eapply validateObjectFields_throws, H.
    + eapply validateObjectFields_throws, H.
    + eapply time_format_check_throws, H.
    + eapply time_format_check_throws, H.
  - cbn [In] in H. unfold policy_check, timezone_check in H.
    destruct H as [H|[H|[H|[H|[H|[H|[H|[H|[]]]]]]]]].
    1: eapply validateObjectFields_throws, H.
    1-6: eapply validateEnum_throws, H.
    destruct (timeZoneSupported h _); inversion H; reflexivity.
Qed.

(** The validator throws nothing but [ConfigValidationError]: no use of a
    value at its declared type ever fails. *)
Lemma validateConfig_throws (h : Host) (config : value) (e : exn) :
  validateConfig h config = Throw e ->
  instanceof_ConfigValidationError e = true.
Proof.
  rewrite validateConfig_first_throw. intros H.
  eapply checks_throw_ConfigValidationError, first_throw_In, H.
Qed.

(* ================================================================== *)
(** * Claims on the validator                                          *)
(* ================================================================== *)

(** C9: a top-level array is not rejected with "config must be an
    object": it passes the object precondition of the field checker and
    fails with "Missing required field 'calendars' in config". *)
Theorem validateConfig_array (h : Host) (elements : list JSON) :
  is_object (Some (JArray elements)) = true /\
  validateConfig h (Some (JArray elements))
  = Throw (ConfigValidationError
      "Missing required field 'calendars' in config") /\
  validateConfig h (Some (JArray elements))
  <> Throw (ConfigValidationError "config must be an object").
Proof.
  split; [reflexivity|].
  assert (H : validateConfig h (Some (JArray elements))
              = Throw (ConfigValidationError
                  "Missing required field 'calendars' in config"))
    by reflexivity.
  split; [exact H|]. rewrite H. discriminate.
Qed.

(** The time zone database is consulted for nothing but the time zone
    check. *)
Lemma checks_in_order_host (h : Host) (config : value) :
  exists others,
    forall h', checks_in_order h' config
               = (others ++ [timezone_check h' (own config "timezone")])%list.
Proof.
  exists
    ([ validateObjectFields config IConfig_fields "config";
       validateEnum (own config "deletion_policy") DeletionPolicy
         "deletion_policy" ]
     ++ calendar_checks_from 0 (elements_of (own config "calendars"))
     ++ flat_map shift_checks (members_of (own config "shifts"))
     ++ [ validateObjectFields (own config "event_handling")
            IEventHandlingConfig_fields "event_handling";
          policy_check config "duplicate_shifts" duplicate_shifts_values;
          policy_check config "overlapping_shifts" overlapping_shifts_values;
          policy_check config "api_failures" api_failures_values;
          policy_check config "partial_updates" partial_updates_values;
          policy_check config "missing_employees" missing_employees_values;
          policy_check config "extra_employees" extra_employees_values ])%list.
  intros h'. unfold checks_in_order.
  rewrite <- !app_assoc. reflexivity.
Qed.

Lemma first_throw_last (others : list (result unit)) (r : result unit) :
  first_throw (others ++ [r])
  = match first_throw others with
    | Ok _ => r
    | Throw e => Throw e
    end.
Proof.
  rewrite first_throw_app. destruct (first_throw others) as [[]|e];
    cbn [bind first_throw]; [destruct r as [[]|]|]; reflexivity.
Qed.

(** C7: the time zone check runs last and its verdict is the host's: an
    error of any other check is reported whatever the host says of the
    time zone, and a document that is valid but for its time zone fails
    with "Invalid timezone: <value>". *)
Theorem validateConfig_timezone_last (h : Host) (config : value) :
  (forall e, validateConfig (with_every_time_zone h) config = Throw e ->
             validateConfig h config = Throw e)
  /\
  (validateConfig (with_every_time_zone h) config = Ok tt ->
   exists tz,
     own config "timezone" = Some (JString tz) /\
     validateConfig h config
     = if timeZoneSupported h tz then Ok tt
       else Throw (ConfigValidationError ("Invalid timezone: " ++ tz))).
Proof.
  destruct (checks_in_order_host h config) as [others Hothers].
  rewrite !validateConfig_first_throw.
  rewrite (Hothers h), (Hothers (with_every_time_zone h)).
  rewrite !first_throw_last. split.
  - intros e. destruct (first_throw others) as [[]|e']; [|auto].
    unfold timezone_check; cbn. discriminate.
  - intros Hok. destruct (first_throw others) as [[]|e'] eqn:Hf;
      [|discriminate].
    assert (Htop : validateObjectFields config IConfig_fields "config"
                   = Ok tt).
    { pose proof (validateConfig_first_throw (with_every_time_zone h) config)
        as Hv.
      rewrite (Hothers (with_every_time_zone h)), first_throw_last, Hf in Hv.
      cbn in Hv. unfold validateConfig in Hv.
      apply bind_unit_Ok_iff in Hv. tauto. }
    apply top_level_Ok_iff in Htop.
    destruct Htop as (cs & ss & es & dp & eh & tz & Hshape).
    destruct Hshape as (_ & _ & _ & _ & _ & Htz).
    exists tz. split; [exact Htz|].
    unfold timezone_check. rewrite Htz. reflexivity.
Qed.

(** The valid document of the test suite with the time zone
    "Invalid/Timezone". *)
Lemma validateConfig_timezone_last_witness :
  exists tz,
    own (Some (config_of validConfig_calendars validConfig_shifts
                 validConfig_employees (JString "full_sync")
                 validConfig_event_handling (JString "Invalid/Timezone")))
        "timezone" = Some (JString tz) /\
    validateConfig (host_serving validConfig)
      (Some (config_of validConfig_calendars validConfig_shifts
               validConfig_employees (JString "full_sync")
               validConfig_event_handling (JString "Invalid/Timezone")))
    = if timeZoneSupported (host_serving validConfig) tz then Ok tt
      else Throw (ConfigValidationError ("Invalid timezone: " ++ tz)).
Proof.
  apply (proj2 (validateConfig_timezone_last (host_serving validConfig)
    (Some (config_of validConfig_calendars validConfig_shifts
             validConfig_employees (JString "full_sync")
             validConfig_event_handling (JString "Invalid/Timezone"))))).
  vm_compute. reflexivity.
Defined.

(* ================================================================== *)
(** * Validity                                                         *)
(* ================================================================== *)

Lemma validateEnum_Ok_iff (value : value) allowedValues fieldName :
  validateEnum value allowedValues fieldName = Ok tt <->
  exists s, value = Some (JString s) /\ In s allowedValues.
Proof.
  rewrite validateEnum_spec. unfold enum_member. split.
  - destruct value as [[| | | s | |]|]; try discriminate.
    destruct (includes allowedValues s) eqn:Hin; [|discriminate].
    intros _. exists s. split; [reflexivity | apply includes_In, Hin].
  - intros (s & -> & Hin). apply includes_In in Hin. rewrite Hin.
    reflexivity.
Qed.

Lemma validateCalendar_Ok_iff (index : nat) (calendar : JSON) :
  validateCalendar (index, calendar) = Ok tt <-> CalendarEntry calendar.
Proof.
  unfold validateCalendar, CalendarEntry, ICalendarEntry_fields.
  rewrite validateObjectFields_Ok_iff. repeat rewrite Forall_cons_iff.
  rewrite field_ok_string, field_ok_array. cbn [own]. split.
  - intros (_ & Hid & Hes & _). split; assumption.
  - intros [[id Hid] Hes]. split; [|eauto].
    destruct (member_Some_object _ _ _ Hid) as [ms ->]. reflexivity.
Qed.

Lemma Forall_entries {A} (P : A -> Prop) (xs : list A) (from : nat) :
  Forall (fun entry => P (snd entry)) (combine (seq from (length xs)) xs)
  <-> Forall P xs.
Proof.
  revert from. induction xs as [|x xs IH]; intros from; cbn.
  - split; constructor.
  - rewrite !Forall_cons_iff, IH. reflexivity.
Qed.

Lemma calendars_Ok_iff (calendars : list JSON) :
  for_of (entries calendars) validateCalendar = Ok tt <->
  Forall CalendarEntry calendars.
Proof.
  rewrite for_of_Ok_iff. unfold entries.
  rewrite <- (Forall_entries CalendarEntry calendars 0).
  split; intros H; eapply Forall_impl; try exact H;
    intros [index calendar]; cbn [snd]; apply validateCalendar_Ok_iff.
Qed.

Lemma validateShift_Ok_iff (key : string) (shift : JSON) :
  validateShift (key, shift) = Ok tt <-> ShiftConfig shift.
Proof.
  split.
  - rewrite validateShift_checks, first_throw_Ok_iff. unfold shift_checks.
    repeat rewrite Forall_cons_iff.
    rewrite !validateObjectFields_Ok_iff.
    unfold IShiftConfig_fields, IShiftPeriod_fields.
    repeat rewrite Forall_cons_iff.
    rewrite !field_ok_string, field_ok_object. cbn [own].
    intros ((_ & Hl & Hc & (period & Hp) & _) & (_ & Hs & He & _)
            & Hstart & Hend & _).
    rewrite Hp in *. cbn [own] in *.
    destruct Hs as [start Hs], He as [end_ He].
    unfold time_format_check in Hstart, Hend. cbn [own] in Hstart, Hend.
    rewrite Hs in Hstart. rewrite He in Hend. cbn [string_of] in *.
    repeat split; auto.
    exists period. split; [exact Hp|].
    exists start, end_. repeat split; auto; apply timeRegex_HHMM.
    + destruct (RegExp_test timeRegex start); [reflexivity|discriminate].
    + destruct (RegExp_test timeRegex end_); [reflexivity|discriminate].
  - intros ([label Hl] & [color Hc] & (period & Hp & Hperiod)).
    destruct Hperiod as (start & end_ & Hs & He & Hstart & Hend).
    cbn [member] in Hs, He.
    rewrite (validateShift_shaped key shift label color start end_ period)
      by assumption.
    apply timeRegex_HHMM in Hstart, Hend. rewrite Hstart, Hend. reflexivity.
Qed.

Lemma shifts_Ok_iff (shifts : list (string * JSON)) :
  for_of shifts validateShift = Ok tt <->
  Forall (fun entry => ShiftConfig (snd entry)) shifts.
Proof.
  rewrite for_of_Ok_iff.
  split; intros H; eapply Forall_impl; try exact H;
    intros [key shift]; cbn [snd]; apply validateShift_Ok_iff.
Qed.

Lemma policy_Ok_iff (members : list (string * JSON)) (field : string)
    allowedValues fieldName :
  validateEnum (lookup field members) allowedValues fieldName = Ok tt <->
  policy_in (JObject members) field allowedValues.
Proof. rewrite validateEnum_Ok_iff. reflexivity. Qed.

Lemma policy_in_string (members : list (string * JSON)) field allowedValues :
  policy_in (JObject members) field allowedValues ->
  field_ok (Some (JObject members)) (field, "string") = true.
Proof.
  intros (s & Hs & _). apply field_ok_string. exists s. exact Hs.
Qed.

(** The validator accepts exactly the valid configurations. *)
Lemma validateConfig_Ok_iff (h : Host) (config : JSON) :
  validateConfig h (Some config) = Ok tt <-> Configuration h config.
Proof.
  split.
  - intros Hv.
    assert (Htop : validateObjectFields (Some config) IConfig_fields "config"
                   = Ok tt).
    { unfold validateConfig in Hv. apply bind_unit_Ok_iff in Hv. tauto. }
    apply top_level_Ok_iff in Htop.
    destruct Htop as (cs & ss & es & dp & eh & tz & Hshape).
    rewrite (validateConfig_shaped h _ cs ss es dp eh tz Hshape) in Hv.
    destruct Hshape as (Hcs & Hss & Hes & Hdp & Heh & Htz). cbn [own] in *.
    unfold validateConfig_checked in Hv.
    repeat (apply bind_unit_Ok_iff in Hv;
            let H := fresh "Hcheck" in destruct Hv as [H Hv]).
    apply validateEnum_Ok_iff in Hcheck.
    destruct Hcheck as (dp' & Hdp' & Hin). injection Hdp' as <-.
    apply calendars_Ok_iff in Hcheck0. apply shifts_Ok_iff in Hcheck1.
    apply policy_Ok_iff in Hcheck3, Hcheck4, Hcheck5, Hcheck6, Hcheck7,
      Hcheck8.
    unfold Configuration, EventHandlingConfig.
    split; [exists cs; split; assumption|].
    split; [exists ss; split; assumption|].
    split; [exists es; assumption|].
    split; [exists dp; split; assumption|].
    split; [exists eh; split; [assumption|]; repeat split; assumption|].
    exists tz. split; [exact Htz|].
    destruct (timeZoneSupported h tz); [reflexivity|discriminate].
  - intros ((cs & Hcs & Hcals) & (ss & Hss & Hshifts) & (es & Hes)
            & (dp & Hdp & Hin) & (eh & Heh & Hevent) & (tz & Htz & Hzone)).
    rewrite (validateConfig_shaped h _ cs ss es dp eh tz)
      by (repeat split; assumption).
    unfold validateConfig_checked.
    destruct Hevent as (H1 & H2 & H3 & H4 & H5 & H6).
    apply bind_unit_Ok_iff; split; [apply validateEnum_Ok_iff; eauto|].
    apply bind_unit_Ok_iff; split; [apply calendars_Ok_iff, Hcals|].
    apply bind_unit_Ok_iff; split; [apply shifts_Ok_iff, Hshifts|].
    apply bind_unit_Ok_iff; split.
    { apply validateObjectFields_Ok_iff. split; [reflexivity|].
      repeat constructor; eapply policy_in_string; eassumption. }
    apply bind_unit_Ok_iff; split; [apply policy_Ok_iff, H1|].
    apply bind_unit_Ok_iff; split; [apply policy_Ok_iff, H2|].
    apply bind_unit_Ok_iff; split; [apply policy_Ok_iff, H3|].
    apply bind_unit_Ok_iff; split; [apply policy_Ok_iff, H4|].
    apply bind_unit_Ok_iff; split; [apply policy_Ok_iff, H5|].
    apply bind_unit_Ok_iff; split; [apply policy_Ok_iff, H6|].
    rewrite Hzone. reflexivity.
Qed.

(* ================================================================== *)
(** * The enum-checked fields of the validator                         *)
(* ================================================================== *)

Lemma validateEnum_string (s : string) (allowedValues : list string)
    (fieldName : string) :
  validateEnum (Some (JString s)) allowedValues fieldName
  = if in_dec string_dec s allowedValues then Ok tt
    else Throw (ConfigValidationError (enum_message fieldName allowedValues)).
Proof.
  rewrite validateEnum_spec. cbn [enum_member].
  destruct (in_dec string_dec s allowedValues) as [Hin|Hout].
  - apply includes_In in Hin. rewrite Hin. reflexivity.
  - destruct (includes allowedValues s) eqn:Hin; [|reflexivity].
    apply includes_In in Hin. contradiction.
Qed.

Lemma Configuration_sites_in_order (h : Host) (config : JSON) :
  Configuration h config ->
  Forall (fun site => site_in_order site (Some config)) enum_checked_fields.
Proof.
  intros (_ & _ & _ & (dp & Hdp & Hin) & (eh & Heh & Hevent) & _).
  destruct Hevent as (H1 & H2 & H3 & H4 & H5 & H6).
  unfold enum_checked_fields, site_in_order, policy_site.
  repeat constructor; cbn [site_value site_allowed own]; rewrite ?Heh;
    cbn [own]; [exists dp; split; assumption | | | | | | ]; assumption.
Qed.

(** With the shapes all in order, the validator is the first failure of
    the seven enum checks in their order, then the time zone check. *)
Lemma validateConfig_enum_checks (h : Host) (config : value)
    (cs : list JSON) (ss es : list (string * JSON)) (dp : string)
    (eh : list (string * JSON)) (tz : string) :
  top_level_shape config cs ss es dp eh tz ->
  Forall CalendarEntry cs ->
  Forall (fun entry => ShiftConfig (snd entry)) ss ->
  Forall (fun field => exists s, lookup field eh = Some (JString s))
    (map fst IEventHandlingConfig_fields) ->
  validateConfig h config
  = first_throw (map (fun site => enum_check site config) enum_checked_fields
                 ++ [timezone_check h (own config "timezone")]).
Proof.
  intros Hshape Hcs Hss Hfields.
  rewrite (validateConfig_shaped h config cs ss es dp eh tz Hshape).
  destruct Hshape as (_ & _ & _ & Hdp & Heh & Htz).
  unfold validateConfig_checked.
  apply calendars_Ok_iff in Hcs. apply shifts_Ok_iff in Hss.
  rewrite Hcs, Hss.
  assert (Hobj : validateObjectFields (Some (JObject eh))
                   IEventHandlingConfig_fields "event_handling" = Ok tt).
  { apply validateObjectFields_Ok_iff. split; [reflexivity|].
    unfold IEventHandlingConfig_fields in *. cbn [map fst] in Hfields.
    repeat rewrite Forall_cons_iff in Hfields.
    destruct Hfields as (F1 & F2 & F3 & F4 & F5 & F6 & _).
    repeat constructor; apply field_ok_string; assumption. }
  rewrite Hobj. cbn [bind].
  unfold enum_checked_fields, policy_site, enum_check, timezone_check.
  cbn [map app site_value site_name site_allowed].
  rewrite Hdp, Heh, Htz. cbn [own member string_of].
  cbn [map fst IEventHandlingConfig_fields] in Hfields.
  repeat rewrite Forall_cons_iff in Hfields.
  destruct Hfields as ((s1 & F1) & (s2 & F2) & (s3 & F3) & (s4 & F4)
                       & (s5 & F5) & (s6 & F6) & _).
  rewrite F1, F2, F3, F4, F5, F6.
  rewrite !validateEnum_string, !first_throw_cons.
  unfold DeletionPolicy, duplicate_shifts_values, overlapping_shifts_values,
    api_failures_values, partial_updates_values, missing_employees_values,
    extra_employees_values.
  repeat match goal with
         | |- bind ?c _ = bind ?c _ =>
             destruct c as [[]|?]; cbn [bind]; [|reflexivity]
         end.
  cbn [first_throw]. destruct (timeZoneSupported h tz); reflexivity.
Qed.

(** C6: the enum checker succeeds exactly when the value is a string
    that is, character for character, one of the allowed values; in
    every other case it fails with "Invalid value for '<fieldName>'.
    Must be one of: <allowed joined by ', '>".  The validator applies it
    to the seven fields of [enum_checked_fields], each with its own
    allowed set and under its own name, 'deletion_policy' or
    'event_handling.<field>': a document that the validator accepts has
    every one of the seven in order, and on a document whose shapes are
    all in order the outcome is the message of the first of the seven
    that is not (or, with all seven in order, the verdict on the time
    zone). *)
Theorem validateEnum_member_or_message
    (value : value) (allowedValues : list string) (fieldName : string) :
  (validateEnum value allowedValues fieldName = Ok tt <->
   exists s, value = Some (JString s) /\ In s allowedValues)
  /\
  (validateEnum value allowedValues fieldName = Ok tt \/
   validateEnum value allowedValues fieldName
   = Throw (ConfigValidationError
       ("Invalid value for '" ++ fieldName ++ "'. Must be one of: " ++
        String.concat ", " allowedValues)))
  /\
  (forall typedConfig members field,
     own typedConfig "event_handling" = Some (JObject members) ->
     validatePolicy typedConfig field allowedValues
     = validateEnum (lookup field members) allowedValues
         ("event_handling." ++ field))
  /\
  (forall h config,
     validateConfig h config = Ok tt ->
     Forall (fun site => site_in_order site config) enum_checked_fields)
  /\
  (forall h config cs ss es dp eh tz,
     top_level_shape config cs ss es dp eh tz ->
     Forall CalendarEntry cs ->
     Forall (fun entry => ShiftConfig (snd entry)) ss ->
     Forall (fun field => exists s, lookup field eh = Some (JString s))
       (map fst IEventHandlingConfig_fields) ->
     validateConfig h config
     = first_throw
         (map (fun site => enum_check site config) enum_checked_fields
          ++ [timezone_check h (own config "timezone")])).
Proof.
  split; [apply validateEnum_Ok_iff|]. split; [|split; [|split]].
  - rewrite validateEnum_spec.
    destruct (enum_member value allowedValues); auto.
  - intros typedConfig members field Hown. unfold validatePolicy.
    destruct typedConfig as [[| | | | |ms]|]; try discriminate.
    cbn in Hown. cbn [get member bind]. rewrite Hown. reflexivity.
  - intros h [config|] Hv.
    + apply (Configuration_sites_in_order h).
      apply validateConfig_Ok_iff, Hv.
    + discriminate Hv.
  - apply validateConfig_enum_checks.
Qed.

(** The deletion policy of the test suite is a member; the policy
    [api_failures] of its [event_handling] is checked under the name
    'event_handling.api_failures'; and the document of the test suite
    with "Warn" for [overlapping_shifts], "later" for [api_failures] and
    an unknown time zone is refused for [overlapping_shifts], with its
    own three literals. *)
Lemma validateEnum_member_or_message_witness :
  validateEnum (Some (JString "full_sync")) DeletionPolicy "deletion_policy"
    = Ok tt /\
  validatePolicy (Some validConfig) "api_failures" api_failures_values
  = validateEnum (Some (JString "log_continue")) api_failures_values
      "event_handling.api_failures" /\
  validateConfig (host_serving validConfig)
    (Some (config_of validConfig_calendars validConfig_shifts
             validConfig_employees (JString "full_sync")
             (JObject [("duplicate_shifts", JString "update");
                       ("overlapping_shifts", JString "Warn");
                       ("api_failures", JString "later");
                       ("partial_updates", JString "preserve_existing");
                       ("missing_employees", JString "warn_continue");
                       ("extra_employees", JString "ignore")])
             (JString "Invalid/Timezone")))
  = Throw (ConfigValidationError
      "Invalid value for 'event_handling.overlapping_shifts'. Must be one of: error, warn, ignore").
Proof.
  split; [|split].
  - apply (proj1 (validateEnum_member_or_message
      (Some (JString "full_sync")) DeletionPolicy "deletion_policy")).
    exists "full_sync". split; [reflexivity | simpl; auto].
  - exact (proj1 (proj2 (proj2 (validateEnum_member_or_message
      (Some (JString "log_continue")) api_failures_values
      "event_handling.api_failures")))
      (Some validConfig)
      [("duplicate_shifts", JString "update");
       ("overlapping_shifts", JString "error");
       ("api_failures", JString "log_continue");
       ("partial_updates", JString "preserve_existing");
       ("missing_employees", JString "warn_continue");
       ("extra_employees", JString "ignore")]
      "api_failures" eq_refl).
  - rewrite (proj2 (proj2 (proj2 (proj2 (validateEnum_member_or_message
      undefined [] ""))))
      (host_serving validConfig) _
      [JObject [("calendar_id", JString "jane.doe@example.com");
                ("employees", JArray [JString "Jane Doe"])]]
      [("M", shift_M); ("N", shift_N)]
      [("Jane Doe", JObject [("color", JString "#FF5733")])]
      "full_sync"
      [("duplicate_shifts", JString "update");
       ("overlapping_shifts", JString "Warn");
       ("api_failures", JString "later");
       ("partial_updates", JString "preserve_existing");
       ("missing_employees", JString "warn_continue");
       ("extra_employees", JString "ignore")]
      "Invalid/Timezone").
    + vm_compute. reflexivity.
    + repeat split.
    + apply calendars_Ok_iff. vm_compute. reflexivity.
    + apply shifts_Ok_iff. vm_compute. reflexivity.
    + repeat constructor; eexists; reflexivity.
Defined.

(* ================================================================== *)
(** * Claims on the loader                                             *)
(* ================================================================== *)

(** C1: for a document that satisfies every validation rule, the loader
    returns the parsed value itself, nothing copied and nothing
    normalized: every member of the parsed value, declared or not, is a
    member of the result. *)
Theorem loadConfig_returns_parsed (h : Host) (configPath text : string)
    (config : JSON) :
  readFile h configPath = Fulfilled text ->
  JSON_parse h text = Parsed config ->
  Configuration h config ->
  loadConfig h configPath = Ok config /\
  (forall field v, member config field = Some v ->
     exists loaded, loadConfig h configPath = Ok loaded /\
                    member loaded field = Some v).
Proof.
  intros Hread Hparse Hvalid.
  assert (Hload : loadConfig h configPath = Ok config).
  { unfold loadConfig, loadConfig_body. rewrite Hread. cbn [bind].
    rewrite Hparse. cbn [bind].
    apply validateConfig_Ok_iff in Hvalid. rewrite Hvalid. reflexivity. }
  split; [exact Hload|]. intros field v Hv. exists config. auto.
Qed.

(** The valid document of the test suite, with undeclared members,
    comes back whole. *)
Lemma loadConfig_returns_parsed_witness :
  loadConfig (host_serving validConfig_with_extras) "test-config.json"
  = Ok validConfig_with_extras.
Proof.
  refine (proj1 (loadConfig_returns_parsed
    (host_serving validConfig_with_extras) "test-config.json"
    "(the text of the file)" validConfig_with_extras eq_refl eq_refl _)).
  apply validateConfig_Ok_iff. vm_compute. reflexivity.
Defined.

(** C3: the loader fails in two kinds only.  Malformed JSON is a
    [ConfigValidationError] "Invalid JSON in config file: <message>", as
    are the errors of the validator, which pass unchanged; a failure to
    read the file is an [Error] that is not a [ConfigValidationError],
    "Failed to load config file: <message>". *)
Theorem loadConfig_failures (h : Host) (configPath : string) :
  (forall m, readFile h configPath = Rejected m ->
     loadConfig h configPath
     = Throw (Error ("Failed to load config file: " ++ m)) /\
     instanceof_ConfigValidationError
       (Error ("Failed to load config file: " ++ m)) = false)
  /\
  (forall text m,
     readFile h configPath = Fulfilled text ->
     JSON_parse h text = Malformed m ->
     loadConfig h configPath
     = Throw (ConfigValidationError ("Invalid JSON in config file: " ++ m)))
  /\
  (forall text config e,
     readFile h configPath = Fulfilled text ->
     JSON_parse h text = Parsed config ->
     validateConfig h (Some config) = Throw e ->
     loadConfig h configPath = Throw e /\
     instanceof_ConfigValidationError e = true)
  /\
  (forall e, loadConfig h configPath = Throw e ->
     instanceof_ConfigValidationError e = true \/
     exists m, readFile h configPath = Rejected m /\
               e = Error ("Failed to load config file: " ++ m)).
Proof.
  unfold loadConfig, loadConfig_body. split; [|split; [|split]].
  - intros m Hread. rewrite Hread. split; reflexivity.
  - intros text m Hread Hparse. rewrite Hread. cbn [bind].
    rewrite Hparse. reflexivity.
  - intros text config e Hread Hparse Hv.
    rewrite Hread. cbn [bind]. rewrite Hparse. cbn [bind]. rewrite Hv.
    cbn [bind try_catch]. unfold loadConfig_handler.
    apply validateConfig_throws in Hv. destruct e; try discriminate.
    split; reflexivity.
  - intros e.
    destruct (readFile h configPath) as [text|m]; cbn [bind try_catch].
    2:{ intros H. inversion H. right. eauto. }
    destruct (JSON_parse h text) as [config|m]; cbn [bind try_catch].
    2:{ intros H. inversion H. left. reflexivity. }
    destruct (validateConfig h (Some config)) as [[]|e'] eqn:Hv;
      cbn [bind try_catch]; [discriminate|].
    apply validateConfig_throws in Hv. destruct e'; try discriminate.
    intros H. inversion H. left. reflexivity.
Qed.

(** The failing read of the test suite. *)
Lemma loadConfig_failures_witness :
  loadConfig host_file_not_found "test-config.json"
  = Throw (Error "Failed to load config file: File not found") /\
  loadConfig host_invalid_json "test-config.json"
  = Throw (ConfigValidationError
      "Invalid JSON in config file: Expected property name or '}' in JSON").
Proof.
  split.
  - apply (proj1 (loadConfig_failures host_file_not_found "test-config.json")
             "File not found" eq_refl).
  - apply (proj1 (proj2 (loadConfig_failures host_invalid_json
             "test-config.json")) "{ invalid: json }"
             "Expected property name or '}' in JSON" eq_refl eq_refl).
Defined.

(* ================================================================== *)
(** * Employees are not looked into                                    *)
(* ================================================================== *)

Lemma first_failure_ext {A} (ok ok' : A -> bool) (err err' : A -> exn) xs :
  (forall x, In x xs -> ok x = ok' x /\ err x = err' x) ->
  first_failure ok err xs = first_failure ok' err' xs.
Proof.
  unfold first_failure.
  induction xs as [|x xs IH]; intros H; [reflexivity|]. cbn [find].
  destruct (H x (or_introl eq_refl)) as [Hok Herr]. rewrite <- Hok.
  destruct (ok x); cbn [negb]; [|rewrite Herr; reflexivity].
  apply IH. intros y Hy. apply H. right. exact Hy.
Qed.

(** The field checker sees a value through the fields it is given to
    check, and sees of each no more than its kind. *)
Lemma validateObjectFields_ext (obj1 obj2 : value) fields objName :
  is_object obj1 = is_object obj2 ->
  (forall declared, In declared fields ->
     field_ok obj1 declared = field_ok obj2 declared /\
     field_error obj1 objName declared = field_error obj2 objName declared) ->
  validateObjectFields obj1 fields objName
  = validateObjectFields obj2 fields objName.
Proof.
  intros Hobj Hfields. rewrite !validateObjectFields_spec, Hobj.
  destruct (is_object obj2); [|reflexivity].
  apply first_failure_ext. intros declared Hin.
  destruct (Hfields declared Hin) as [-> ->]. split; reflexivity.
Qed.

Lemma same_member_same_field (obj1 obj2 : value) objName field type :
  own obj1 field = own obj2 field ->
  field_ok obj1 (field, type) = field_ok obj2 (field, type) /\
  field_error obj1 objName (field, type)
  = field_error obj2 objName (field, type).
Proof.
  intros H. unfold field_ok, field_error. cbn [fst snd]. rewrite H.
  split; reflexivity.
Qed.

Lemma arrays_same_field (obj1 obj2 : value) objName field type es1 es2 :
  own obj1 field = Some (JArray es1) ->
  own obj2 field = Some (JArray es2) ->
  field_ok obj1 (field, type) = field_ok obj2 (field, type) /\
  field_error obj1 objName (field, type)
  = field_error obj2 objName (field, type).
Proof.
  intros H1 H2. unfold field_ok, field_error. cbn [fst snd].
  rewrite H1, H2. split; reflexivity.
Qed.

Lemma objects_same_field (obj1 obj2 : value) objName field type ms1 ms2 :
  own obj1 field = Some (JObject ms1) ->
  own obj2 field = Some (JObject ms2) ->
  field_ok obj1 (field, type) = field_ok obj2 (field, type) /\
  field_error obj1 objName (field, type)
  = field_error obj2 objName (field, type).
Proof.
  intros H1 H2. unfold field_ok, field_error. cbn [fst snd].
  rewrite H1, H2. split; reflexivity.
Qed.

Lemma validateCalendar_same (index : nat) (calendar1 calendar2 : JSON) :
  same_calendar_but_employees calendar1 calendar2 ->
  validateCalendar (index, calendar1) = validateCalendar (index, calendar2).
Proof.
  intros [(names1 & names2 & H1 & H2) Hid]. unfold validateCalendar.
  destruct (member_Some_object _ _ _ H1) as [ms1 ->].
  destruct (member_Some_object _ _ _ H2) as [ms2 ->].
  apply validateObjectFields_ext; [reflexivity|].
  intros declared [<-|[<-|[]]].
  - apply same_member_same_field. exact Hid.
  - eapply arrays_same_field; eassumption.
Qed.

Lemma calendars_same (calendars1 calendars2 : list JSON) (from : nat) :
  Forall2 same_calendar_but_employees calendars1 calendars2 ->
  map validateCalendar (combine (seq from (length calendars1)) calendars1)
  = map validateCalendar (combine (seq from (length calendars2)) calendars2).
Proof.
  intros H. revert from.
  induction H as [|c1 c2 cs1 cs2 Hc _ IH]; intros from; [reflexivity|].
  cbn [length seq combine map]. rewrite (validateCalendar_same from c1 c2 Hc).
  rewrite IH. reflexivity.
Qed.

Lemma checks_in_order_same (h : Host) (config1 config2 : JSON) :
  same_but_employees config1 config2 ->
  checks_in_order h (Some config1) = checks_in_order h (Some config2).
Proof.
  intros ((es1 & es2 & He1 & He2) & (cs1 & cs2 & Hc1 & Hc2 & Hcs) & Hrest).
  destruct (member_Some_object _ _ _ He1) as [ms1 ->].
  destruct (member_Some_object _ _ _ He2) as [ms2 ->].
  unfold checks_in_order, policy_check. cbn [own].
  rewrite Hc1, Hc2. cbn [elements_of].
  rewrite !calendar_checks_entries. unfold entries.
  rewrite (calendars_same cs1 cs2 0 Hcs).
  rewrite (Hrest "deletion_policy"), (Hrest "shifts"),
    (Hrest "event_handling"), (Hrest "timezone") by discriminate.
  do 2 f_equal.
  apply validateObjectFields_ext; [reflexivity|].
  intros declared [<-|[<-|[<-|[<-|[<-|[<-|[]]]]]]].
  - eapply arrays_same_field; eassumption.
  - apply same_member_same_field, Hrest; discriminate.
  - eapply objects_same_field; eassumption.
  - apply same_member_same_field, Hrest; discriminate.
  - apply same_member_same_field, Hrest; discriminate.
  - apply same_member_same_field, Hrest; discriminate.
Qed.

(** C8: validation does not look into the members of the top-level
    [employees] mapping nor into the elements of the [employees] array of
    any calendar: two documents that differ only there get the same
    verdict, so that employees of any shape pass when everything else
    does. *)
Theorem validateConfig_ignores_employees (h : Host) (config1 config2 : JSON) :
  same_but_employees config1 config2 ->
  validateConfig h (Some config1) = validateConfig h (Some config2) /\
  (Configuration h config1 -> validateConfig h (Some config2) = Ok tt).
Proof.
  intros Hsame.
  assert (Heq : validateConfig h (Some config1)
                = validateConfig h (Some config2)).
  { rewrite !validateConfig_first_throw.
    rewrite (checks_in_order_same h config1 config2 Hsame). reflexivity. }
  split; [exact Heq|].
  intros Hvalid. rewrite <- Heq. apply validateConfig_Ok_iff, Hvalid.
Qed.

(** Numbers, [null], objects and arrays in the place of employee names
    and of employee configurations: the document loads. *)
Lemma validateConfig_ignores_employees_witness :
  validateConfig (host_serving validConfig_odd_employees)
    (Some validConfig_odd_employees) = Ok tt.
Proof.
  refine (proj2 (validateConfig_ignores_employees
    (host_serving validConfig_odd_employees)
    validConfig validConfig_odd_employees _) _).
  - split; [|split].
    + eexists _, _. split; reflexivity.
    + eexists _, _. split; [reflexivity|]. split; [reflexivity|].
      repeat constructor. eexists _, _. split; reflexivity.
    + intros field H1 H2. cbn [validConfig validConfig_odd_employees
        config_of member lookup].
      destruct (String.eqb_spec "calendars" field) as [E|_];
        [congruence|].
      destruct ("shifts" =? field); [reflexivity|].
      destruct (String.eqb_spec "employees" field) as [E|_];
        [congruence|].
      reflexivity.
  - apply validateConfig_Ok_iff. vm_compute. reflexivity.
Defined.

(* ================================================================== *)
(** * The cases of the test suite                                      *)
(* ================================================================== *)

Example loads_a_valid_config :
  loadConfig (host_serving validConfig) "test-config.json" = Ok validConfig.
Proof. vm_compute. reflexivity. Qed.

Example throws_on_invalid_JSON :
  exists m, loadConfig host_invalid_json "test-config.json"
            = Throw (ConfigValidationError m).
Proof. eexists. vm_compute. reflexivity. Qed.

Example validates_missing_required_fields :
  loadConfig (host_serving (delete "calendars" validConfig)) "test-config.json"
  = Throw (ConfigValidationError
      "Missing required field 'calendars' in config").
Proof. vm_compute. reflexivity. Qed.

Example validates_deletion_policy :
  loadConfig
    (host_serving
       (config_of validConfig_calendars validConfig_shifts
          validConfig_employees (JString "invalid_policy")
          validConfig_event_handling (JString "Europe/Madrid")))
    "test-config.json"
  = Throw (ConfigValidationError
      "Invalid value for 'deletion_policy'. Must be one of: full_sync, preserve_manual, append_only").
Proof. vm_compute. reflexivity. Qed.

Example validates_event_handling :
  loadConfig
    (host_serving
       (config_of validConfig_calendars validConfig_shifts
          validConfig_employees (JString "full_sync")
          (JObject [("duplicate_shifts", JString "invalid_value");
                    ("overlapping_shifts", JString "error");
                    ("api_failures", JString "log_continue");
                    ("partial_updates", JString "preserve_existing");
                    ("missing_employees", JString "warn_continue");
                    ("extra_employees", JString "ignore")])
          (JString "Europe/Madrid")))
    "test-config.json"
  = Throw (ConfigValidationError
      "Invalid value for 'event_handling.duplicate_shifts'. Must be one of: update, skip, create_new").
Proof. vm_compute. reflexivity. Qed.

Example validates_time_format :
  loadConfig
    (host_serving
       (config_of validConfig_calendars
          (JObject [("M", JObject [("label", JString "Morning Shift");
                                   ("color", JString "#FFD700");
                                   ("period",
                                    JObject [("start", JString "8:00");
                                             ("end", JString "16:00")])])])
          validConfig_employees (JString "full_sync")
          validConfig_event_handling (JString "Europe/Madrid")))
    "test-config.json"
  = Throw (ConfigValidationError
      "Invalid time format for shifts.M.period.start. Must be HH:MM format.").
Proof. vm_compute. reflexivity. Qed.

Example validates_timezone :
  loadConfig
    (host_serving
       (config_of validConfig_calendars validConfig_shifts
          validConfig_employees (JString "full_sync")
          validConfig_event_handling (JString "Invalid/Timezone")))
    "test-config.json"
  = Throw (ConfigValidationError "Invalid timezone: Invalid/Timezone").
Proof. vm_compute. reflexivity. Qed.

Example handles_file_system_errors :
  loadConfig host_file_not_found "test-config.json"
  = Throw (Error "Failed to load config file: File not found").
Proof. vm_compute. reflexivity. Qed.

(* ================================================================== *)
(** * Further properties of the field checker                          *)
(* ================================================================== *)

Lemma not_an_object_is_object (obj : value) :
  not_an_object obj -> is_object obj = false.
Proof.
  intros [Hobj Harr]. destruct (is_object obj) eqn:H; [|reflexivity].
  apply is_object_cases in H. destruct H as [[ms ->]|[es ->]].
  - exfalso. apply (Hobj ms). reflexivity.
  - exfalso. apply (Harr es). reflexivity.
Qed.

(** X1: [undefined], [null], a boolean, a number and a string are turned
    away with "<objName> must be an object" before any field is looked
    at, whatever the field spec, the empty one included. *)
Theorem validateObjectFields_not_an_object
    (obj : value) (fields : list (string * string)) (objName : string) :
  not_an_object obj ->
  validateObjectFields obj fields objName
  = Throw (ConfigValidationError (objName ++ " must be an object")).
Proof.
  intros H. rewrite validateObjectFields_spec.
  rewrite (not_an_object_is_object obj H). reflexivity.
Qed.

(** The number zero, with no field to check. *)
Lemma validateObjectFields_not_an_object_witness :
  validateObjectFields (Some (JNumber 0)) [] "calendars[0]"
  = Throw (ConfigValidationError "calendars[0] must be an object").
Proof.
  apply (validateObjectFields_not_an_object (Some (JNumber 0)) []
           "calendars[0]").
  split; intros x H; discriminate H.
Defined.

Lemma kind_matches_has_kind (type : string) (v : JSON) :
  kind_matches type (Some v) = true <-> has_kind type v.
Proof.
  unfold has_kind.
  destruct (String.eqb_spec type "string") as [->|Hs].
  { rewrite kind_string. split.
    - intros H. repeat split; [auto | discriminate | discriminate].
    - intros (H & _ & _). auto. }
  destruct (String.eqb_spec type "array") as [->|Ha].
  { rewrite kind_array. split.
    - intros H. repeat split; [discriminate | auto | discriminate].
    - intros (_ & H & _). auto. }
  destruct (String.eqb_spec type "object") as [->|Ho].
  { rewrite kind_object. split.
    - intros H. repeat split; [discriminate | discriminate | auto].
    - intros (_ & _ & H). auto. }
  unfold kind_matches.
  apply String.eqb_neq in Hs, Ha, Ho. rewrite Hs, Ha, Ho.
  apply String.eqb_neq in Hs, Ha, Ho.
  split; [|reflexivity]. intros _. repeat split; intros ->; congruence.
Qed.

(** X2: with a field spec of plain names, the field checker accepts
    exactly a non-null object or array in which every declared field is
    present and of its declared kind; a member that holds [null] is
    present, and of none of the three kinds. *)
Theorem validateObjectFields_accepts_iff
    (obj : value) (fields : list (string * string)) (objName : string) :
  Forall (fun declared => plain_name (fst declared) = true) fields ->
  (validateObjectFields obj fields objName = Ok tt <->
   ((exists members, obj = Some (JObject members)) \/
    (exists elements, obj = Some (JArray elements))) /\
   Forall (fun declared =>
             exists v, own obj (fst declared) = Some v /\
                       has_kind (snd declared) v) fields).
Proof.
  intros _.
  rewrite validateObjectFields_Ok_iff, is_object_cases.
  apply and_iff_compat_l.
  split; intros H; eapply Forall_impl; try exact H;
    intros [field type]; unfold field_ok; cbn [fst snd].
  - destruct (own obj field) as [v|]; [|discriminate].
    intros Hk. exists v. split; [reflexivity|].
    apply kind_matches_has_kind, Hk.
  - intros (v & -> & Hk). apply kind_matches_has_kind, Hk.
Qed.

(** A calendar entry with a member more than declared is accepted; with
    [null] for its employees it is not. *)
Lemma validateObjectFields_accepts_iff_witness :
  validateObjectFields
    (Some (JObject [("calendar_id", JString "a"); ("note", JNull);
                    ("employees", JArray [JNull])]))
    ICalendarEntry_fields "calendars[0]" = Ok tt /\
  validateObjectFields
    (Some (JObject [("calendar_id", JString "a"); ("employees", JNull)]))
    ICalendarEntry_fields "calendars[0]" <> Ok tt.
Proof.
  split.
  - apply (proj2 (validateObjectFields_accepts_iff
      (Some (JObject [("calendar_id", JString "a"); ("note", JNull);
                      ("employees", JArray [JNull])]))
      ICalendarEntry_fields "calendars[0]"
      ltac:(repeat constructor))).
    split; [left; eexists; reflexivity|].
    repeat constructor; eexists; (split; [reflexivity|]);
      repeat split; intros H; try discriminate H; eexists; reflexivity.
  - intros H.
    apply (proj1 (validateObjectFields_accepts_iff
      (Some (JObject [("calendar_id", JString "a"); ("employees", JNull)]))
      ICalendarEntry_fields "calendars[0]"
      ltac:(repeat constructor))) in H.
    destruct H as [_ H]. inversion H as [|d1 r1 _ H1]; subst.
    inversion H1 as [|d2 r2 H2 _]; subst.
    destruct H2 as (v & Hv & _ & Harr & _).
    injection Hv as <-. destruct (Harr eq_refl) as [es Hes].
    discriminate Hes.
Defined.

(** X3: the field checker sees of an object the declared members only:
    two objects that agree on every declared name get the same outcome,
    however their other members and the order of their members differ. *)
Theorem validateObjectFields_declared_only
    (members1 members2 : list (string * JSON))
    (fields : list (string * string)) (objName : string) :
  (forall declared, In declared fields ->
     lookup (fst declared) members1 = lookup (fst declared) members2) ->
  validateObjectFields (Some (JObject members1)) fields objName
  = validateObjectFields (Some (JObject members2)) fields objName.
Proof.
  intros H. apply validateObjectFields_ext; [reflexivity|].
  intros [field type] Hin. apply same_member_same_field.
  exact (H (field, type) Hin).
Qed.

(** A calendar entry, and the same with its members swapped and two
    more added. *)
Lemma validateObjectFields_declared_only_witness :
  validateObjectFields
    (Some (JObject [("calendar_id", JString "a"); ("employees", JNull)]))
    ICalendarEntry_fields "calendars[0]"
  = validateObjectFields
      (Some (JObject [("note", JBool true); ("employees", JNull);
                      ("calendar_id", JString "a"); ("extra", JNull)]))
      ICalendarEntry_fields "calendars[0]".
Proof.
  apply (validateObjectFields_declared_only
    [("calendar_id", JString "a"); ("employees", JNull)]
    [("note", JBool true); ("employees", JNull);
     ("calendar_id", JString "a"); ("extra", JNull)]
    ICalendarEntry_fields "calendars[0]").
  intros declared [<-|[<-|[]]]; reflexivity.
Defined.

(* ================================================================== *)
(** * Further properties of the validator and of the loader            *)
(* ================================================================== *)

(** X4: whatever value it is given, [undefined] included, the validator
    throws nothing but a [ConfigValidationError]: no member access, no
    iteration and no regular expression test in it ever meets a value of
    another shape than its declared type. *)
Theorem validateConfig_only_ConfigValidationError
    (h : Host) (config : value) (e : exn) :
  validateConfig h config = Throw e ->
  exists m, e = ConfigValidationError m.
Proof.
  intros H. apply validateConfig_throws in H.
  destruct e; try discriminate H. eauto.
Qed.

Lemma validateConfig_only_ConfigValidationError_witness :
  exists m,
    ConfigValidationError "config must be an object"
    = ConfigValidationError m.
Proof.
  apply (validateConfig_only_ConfigValidationError
           (host_serving validConfig) undefined
           (ConfigValidationError "config must be an object")).
  reflexivity.
Defined.

(** X5: the validator accepts a value exactly when it is a document that
    satisfies every rule: the six top-level fields of their kinds, every
    calendar entry and every shift of its shape, times written [HH:MM],
    the seven policies among their literals, and a time zone that the
    host knows. *)
Theorem validateConfig_accepts_iff (h : Host) (config : value) :
  validateConfig h config = Ok tt <->
  exists document, config = Some document /\ Configuration h document.
Proof.
  destruct config as [document|].
  - rewrite validateConfig_Ok_iff. split.
    + intros H. exists document. auto.
    + intros (d & Hd & H). injection Hd as <-. exact H.
  - split; [discriminate | intros (d & Hd & _); discriminate].
Qed.

(** X6: the loader succeeds exactly when the file is read, its text
    parses, and the parsed document satisfies every rule; so whatever it
    returns is a valid configuration. *)
Theorem loadConfig_succeeds_iff (h : Host) (configPath : string)
    (config : JSON) :
  loadConfig h configPath = Ok config <->
  exists text, readFile h configPath = Fulfilled text /\
               JSON_parse h text = Parsed config /\
               Configuration h config.
Proof.
  unfold loadConfig, loadConfig_body. split.
  - destruct (readFile h configPath) as [text|m]; cbn [bind try_catch];
      [|discriminate].
    destruct (JSON_parse h text) as [parsed|m] eqn:Hparse;
      cbn [bind try_catch]; [|discriminate].
    destruct (validateConfig h (Some parsed)) as [[]|e] eqn:Hv;
      cbn [bind try_catch].
    + intros H. injection H as <-. exists text.
      split; [reflexivity|]. split; [exact Hparse|].
      apply validateConfig_Ok_iff, Hv.
    + unfold loadConfig_handler.
      destruct (instanceof_SyntaxError e); [discriminate|].
      destruct (instanceof_ConfigValidationError e); discriminate.
  - intros (text & Hread & Hparse & Hvalid).
    rewrite Hread. cbn [bind]. rewrite Hparse. cbn [bind].
    apply validateConfig_Ok_iff in Hvalid. rewrite Hvalid. reflexivity.
Qed.

(** X7: a file whose text parses to [null], a boolean, a number or a
    string fails to load with the [ConfigValidationError] "config must be
    an object". *)
Theorem loadConfig_not_an_object (h : Host) (configPath text : string)
    (config : JSON) :
  readFile h configPath = Fulfilled text ->
  JSON_parse h text = Parsed config ->
  not_an_object (Some config) ->
  loadConfig h configPath
  = Throw (ConfigValidationError "config must be an object").
Proof.
  intros Hread Hparse Hnot.
  unfold loadConfig, loadConfig_body. rewrite Hread. cbn [bind].
  rewrite Hparse. cbn [bind].
  unfold validateConfig. rewrite validateObjectFields_spec.
  rewrite (not_an_object_is_object _ Hnot). reflexivity.
Qed.

(** A file that holds the text [null]. *)
Lemma loadConfig_not_an_object_witness :
  loadConfig (host_serving JNull) "test-config.json"
  = Throw (ConfigValidationError "config must be an object").
Proof.
  apply (loadConfig_not_an_object (host_serving JNull) "test-config.json"
           "(the text of the file)" JNull eq_refl eq_refl).
  split; intros x H; discriminate H.
Defined.

(* ================================================================== *)
(** * What the field checker can say                                   *)
(* ================================================================== *)

Lemma first_failure_Throw {A} (ok : A -> bool) (err : A -> exn) xs e :
  first_failure ok err xs = Throw e ->
  exists x, In x xs /\ ok x = false /\ e = err x.
Proof.
  unfold first_failure.
  destruct (find (fun x => negb (ok x)) xs) as [x|] eqn:Hfind;
    [|discriminate].
  intros H. injection H as <-. apply find_some in Hfind.
  destruct Hfind as [Hin Hok]. exists x. split; [exact Hin|].
  split; [|reflexivity]. destruct (ok x); [discriminate|reflexivity].
Qed.

(** The failures of the field checker, case by case. *)
Lemma validateObjectFields_error_cases
    (obj : value) (fields : list (string * string)) (objName : string)
    (e : exn) :
  validateObjectFields obj fields objName = Throw e ->
  (is_object obj = false /\
   e = ConfigValidationError (objName ++ " must be an object"))
  \/
  (is_object obj = true /\
   exists field type, In (field, type) fields /\
     ((own obj field = undefined /\
       e = ConfigValidationError
             ("Missing required field '" ++ field ++ "' in " ++ objName))
      \/
      (exists v, own obj field = Some v /\
                 kind_matches type (Some v) = false /\
       e = ConfigValidationError
             ("Field '" ++ field ++ "' in " ++ objName ++ " must be " ++
              kind_phrase type)))).
Proof.
  rewrite validateObjectFields_spec.
  destruct (is_object obj); [|intros H; injection H as <-; auto].
  intros H. right. split; [reflexivity|].
  apply first_failure_Throw in H. destruct H as ([field type] & Hin & Hok & ->).
  exists field, type. split; [exact Hin|].
  unfold field_ok, field_error in *. cbn [fst snd] in *.
  destruct (own obj field) as [v|]; [right|left; auto].
  exists v. auto.
Qed.

(** X8: with a field spec of plain names, every failure of the field
    checker is a precondition failure "<objName> must be an object", and
    then the value is no object, or it names a declared field: as
    missing, and then the value has no such member, or as being of
    another kind than declared. *)
Theorem validateObjectFields_errors
    (obj : value) (fields : list (string * string)) (objName : string)
    (e : exn) :
  Forall (fun declared => plain_name (fst declared) = true) fields ->
  validateObjectFields obj fields objName = Throw e ->
  (is_object obj = false /\
   e = ConfigValidationError (objName ++ " must be an object"))
  \/
  (is_object obj = true /\
   exists field type, In (field, type) fields /\
     ((own obj field = undefined /\
       e = ConfigValidationError
             ("Missing required field '" ++ field ++ "' in " ++ objName))
      \/
      (exists v, own obj field = Some v /\
                 kind_matches type (Some v) = false /\
       e = ConfigValidationError
             ("Field '" ++ field ++ "' in " ++ objName ++ " must be " ++
              kind_phrase type)))).
Proof.
  intros _. apply validateObjectFields_error_cases.
Qed.

(** [null] in the place of a calendar entry: a precondition failure. *)
Lemma validateObjectFields_errors_witness :
  validateObjectFields (Some JNull) ICalendarEntry_fields "calendars[3]"
  = Throw (ConfigValidationError "calendars[3] must be an object") /\
  is_object (Some JNull) = false.
Proof.
  split; [reflexivity|].
  destruct (validateObjectFields_errors (Some JNull) ICalendarEntry_fields
              "calendars[3]"
              (ConfigValidationError "calendars[3] must be an object")
              ltac:(repeat constructor) eq_refl) as [[H _]|[H _]].
  - exact H.
  - discriminate H.
Defined.

(* ================================================================== *)
(** * A declared member taken away                                     *)
(* ================================================================== *)

Lemma lookup_delete (key field : string) (members : list (string * JSON)) :
  lookup key (filter (fun entry => negb (fst entry =? field)) members)
  = if key =? field then undefined else lookup key members.
Proof.
  induction members as [|[k v] members IH]; cbn [filter lookup fst].
  - destruct (key =? field); reflexivity.
  - destruct (String.eqb_spec k field) as [->|Hk]; cbn [negb lookup].
    + rewrite IH. destruct (String.eqb_spec key field) as [->|Hkey];
        [reflexivity|].
      destruct (String.eqb_spec field key) as [->|_]; [contradiction|].
      reflexivity.
    + rewrite IH. destruct (String.eqb_spec key field) as [->|Hkey].
      * apply String.eqb_neq in Hk. rewrite Hk. reflexivity.
      * reflexivity.
Qed.

Lemma validateObjectFields_deleted (members : list (string * JSON))
    (fields : list (string * string)) (objName field : string) :
  Forall (fun d => field_ok (Some (JObject members)) d = true) fields ->
  In field (map fst fields) ->
  validateObjectFields (Some (delete field (JObject members))) fields objName
  = Throw (ConfigValidationError
      ("Missing required field '" ++ field ++ "' in " ++ objName)).
Proof.
  intros Hok Hin. rewrite validateObjectFields_spec.
  cbn [delete is_object truthy typeof andb String.eqb Ascii.eqb Bool.eqb].
  unfold first_failure.
  induction Hok as [|[f t] fields Hf _ IH]; [destruct Hin|].
  cbn [find]. unfold field_ok at 1. cbn [fst snd own member].
  rewrite lookup_delete.
  destruct (String.eqb_spec f field) as [->|Hneq].
  - cbn [negb]. unfold field_error. cbn [fst snd own member].
    rewrite lookup_delete, String.eqb_refl. reflexivity.
  - unfold field_ok in Hf. cbn [fst snd own member] in Hf. rewrite Hf.
    cbn [negb]. apply IH. destruct Hin as [Hin|Hin]; [|exact Hin].
    cbn [fst] in Hin. contradiction.
Qed.

(** X9: from a document with the six top-level fields in place, take any
    one of them away: the validator fails with "Missing required field
    '<field>' in config", whatever else is wrong with the document. *)
Theorem validateConfig_missing_field (h : Host) (config : JSON)
    (field : string) :
  validateObjectFields (Some config) IConfig_fields "config" = Ok tt ->
  In field (map fst IConfig_fields) ->
  validateConfig h (Some (delete field config))
  = Throw (ConfigValidationError
      ("Missing required field '" ++ field ++ "' in config")).
Proof.
  intros Htop Hin.
  apply validateObjectFields_Ok_iff in Htop. destruct Htop as [Hobj Hok].
  apply is_object_cases in Hobj. destruct Hobj as [[ms Hms]|[es Hes]].
  - injection Hms as ->. unfold validateConfig.
    rewrite (validateObjectFields_deleted ms IConfig_fields "config" field)
      by assumption.
    reflexivity.
  - injection Hes as ->. inversion Hok as [|d ds Hd _]; subst.
    discriminate Hd.
Qed.

(** The document of the test suite, its time zone apart, without its
    deletion policy. *)
Lemma validateConfig_missing_field_witness :
  validateConfig (host_serving validConfig)
    (Some (delete "deletion_policy"
             (config_of validConfig_calendars validConfig_shifts
                validConfig_employees (JString "full_sync")
                validConfig_event_handling (JString "Invalid/Timezone"))))
  = Throw (ConfigValidationError
      "Missing required field 'deletion_policy' in config").
Proof.
  apply (validateConfig_missing_field (host_serving validConfig)
    (config_of validConfig_calendars validConfig_shifts
       validConfig_employees (JString "full_sync")
       validConfig_event_handling (JString "Invalid/Timezone"))
    "deletion_policy").
  - reflexivity.
  - simpl. auto.
Defined.

(* ================================================================== *)
(** * Calendars                                                        *)
(* ================================================================== *)

Lemma entries_from_app {A} (pre post : list A) (x : A) (from : nat) :
  combine (seq from (length (pre ++ x :: post))) (pre ++ x :: post)
  = (combine (seq from (length pre)) pre
     ++ (from + length pre, x)
        :: combine (seq (S (from + length pre)) (length post)) post)%list.
Proof.
  revert from. induction pre as [|y pre IH]; intros from.
  - cbn. rewrite Nat.add_0_r. reflexivity.
  - cbn [app length seq combine]. rewrite IH.
    rewrite Nat.add_succ_comm. reflexivity.
Qed.

Lemma validateCalendar_errors (index : nat) (calendar : JSON) (e : exn) :
  validateCalendar (index, calendar) = Throw e ->
  exists m, e = ConfigValidationError m /\ In m (calendar_errors index).
Proof.
  unfold validateCalendar. rewrite validateObjectFields_spec.
  destruct (is_object (Some calendar)).
  - intros H. apply first_failure_Throw in H.
    destruct H as ([field type] & Hin & _ & ->).
    unfold field_error. cbn [fst snd].
    destruct Hin as [H|[H|[]]]; injection H as <- <-;
      destruct (own (Some calendar) _); eexists; (split; [reflexivity|]);
      cbn; auto 6.
  - intros H. injection H as <-. eexists. split; [reflexivity|].
    cbn; auto.
Qed.

(** X10: with the top level and the deletion policy in order, the first
    calendar entry that is not of the right shape decides the outcome,
    whatever follows it, and the error names it by its position in the
    array, counted from zero: it is one of the five messages on
    "calendars[<position>]". *)
Theorem validateConfig_first_invalid_calendar (h : Host) (config : value)
    (pre post : list JSON) (calendar : JSON) :
  validateObjectFields config IConfig_fields "config" = Ok tt ->
  validateEnum (own config "deletion_policy") DeletionPolicy
    "deletion_policy" = Ok tt ->
  own config "calendars" = Some (JArray (pre ++ calendar :: post)) ->
  Forall CalendarEntry pre ->
  ~ CalendarEntry calendar ->
  validateConfig h config = validateCalendar (length pre, calendar) /\
  exists m, validateConfig h config = Throw (ConfigValidationError m) /\
            In m (calendar_errors (length pre)).
Proof.
  intros Htop Hpolicy Hcalendars Hpre Hbad.
  assert (Hv : validateConfig h config
               = validateCalendar (length pre, calendar)).
  { apply top_level_Ok_iff in Htop.
    destruct Htop as (cs & ss & es & dp & eh & tz & Hshape).
    rewrite (validateConfig_shaped h config cs ss es dp eh tz Hshape).
    destruct Hshape as (Hcs & _ & _ & Hdp & _ & _).
    rewrite Hcalendars in Hcs. injection Hcs as <-.
    rewrite Hdp in Hpolicy. unfold validateConfig_checked.
    rewrite Hpolicy. cbn [bind]. unfold entries.
    rewrite entries_from_app, for_of_app.
    assert (Hok : for_of (combine (seq 0 (length pre)) pre) validateCalendar
                  = Ok tt) by (apply calendars_Ok_iff, Hpre).
    rewrite Hok. cbn [bind for_of Nat.add].
    destruct (validateCalendar (length pre, calendar)) as [[]|e] eqn:Hc;
      [|reflexivity].
    exfalso. apply Hbad. eapply validateCalendar_Ok_iff, Hc. }
  split; [exact Hv|]. rewrite Hv.
  destruct (validateCalendar (length pre, calendar)) as [[]|e] eqn:Hc.
  - exfalso. apply Hbad. eapply validateCalendar_Ok_iff, Hc.
  - destruct (validateCalendar_errors _ _ _ Hc) as (m & -> & Hm). eauto.
Qed.

(** A [null] after one calendar entry, and another [null] after it. *)
Lemma validateConfig_first_invalid_calendar_witness :
  validateConfig (host_serving validConfig)
    (Some (config_of
             (JArray ([JObject [("calendar_id", JString "a");
                                ("employees", JArray [])]]
                      ++ JNull :: [JNull]))
             validConfig_shifts validConfig_employees (JString "full_sync")
             validConfig_event_handling (JString "Europe/Madrid")))
  = validateCalendar (1, JNull).
Proof.
  refine (proj1 (validateConfig_first_invalid_calendar
    (host_serving validConfig)
    (Some (config_of
             (JArray ([JObject [("calendar_id", JString "a");
                                ("employees", JArray [])]]
                      ++ JNull :: [JNull]))
             validConfig_shifts validConfig_employees (JString "full_sync")
             validConfig_event_handling (JString "Europe/Madrid")))
    [JObject [("calendar_id", JString "a"); ("employees", JArray [])]]
    [JNull] JNull eq_refl eq_refl eq_refl _ _)).
  - repeat constructor; eexists; reflexivity.
  - intros [[id H] _]. discriminate H.
Defined.

(* ================================================================== *)
(** * Shifts                                                           *)
(* ================================================================== *)

(** X11: every failure of the checks of a shift is a
    [ConfigValidationError] with one of thirteen messages, each of which
    names the shift by its key; "shifts.<key>.period must be an object"
    is none of them, since the kind of [period] is checked before its
    fields are. *)
Theorem validateShift_errors (key : string) (shift : JSON) (e : exn) :
  validateShift (key, shift) = Throw e ->
  exists m, e = ConfigValidationError m /\ In m (shift_errors key).
Proof.
  rewrite validateShift_checks. unfold shift_checks.
  rewrite first_throw_cons.
  destruct (validateObjectFields (Some shift) IShiftConfig_fields
              ("shifts." ++ key)) as [[]|e1] eqn:H1; cbn [bind].
  2:{ intros H. injection H as <-.
      apply validateObjectFields_error_cases in H1.
      destruct H1 as [[_ ->]|(_ & field & type & Hin & Hcase)].
      - eexists. split; [reflexivity|]. cbn; auto.
      - destruct Hin as [H|[H|[H|[]]]]; injection H as <- <-;
          destruct Hcase as [[_ ->]|(v & _ & _ & ->)];
          eexists; (split; [reflexivity|]); cbn; auto 10. }
  apply validateObjectFields_Ok_iff in H1. destruct H1 as [_ Hf].
  unfold IShiftConfig_fields in Hf. repeat rewrite Forall_cons_iff in Hf.
  destruct Hf as (_ & _ & Hperiod & _).
  apply field_ok_object in Hperiod. destruct Hperiod as [period Hperiod].
  rewrite Hperiod. rewrite first_throw_cons.
  destruct (validateObjectFields (Some (JObject period)) IShiftPeriod_fields
              ("shifts." ++ key ++ ".period")) as [[]|e2] eqn:H2; cbn [bind].
  2:{ intros H. injection H as <-.
      apply validateObjectFields_error_cases in H2.
      destruct H2 as [[Hno _]|(_ & field & type & Hin & Hcase)];
        [discriminate Hno|].
      destruct Hin as [H|[H|[]]]; injection H as <- <-;
        destruct Hcase as [[_ ->]|(v & _ & _ & ->)];
        eexists; (split; [reflexivity|]); cbn; auto 15. }
  cbn [first_throw]. unfold time_format_check.
  destruct (RegExp_test timeRegex _).
  - destruct (RegExp_test timeRegex _); [discriminate|].
    intros H. injection H as <-. eexists. split; [reflexivity|].
    cbn; auto 15.
  - intros H. injection H as <-. eexists. split; [reflexivity|].
    cbn; auto 15.
Qed.

(** A shift whose period is an array: the message is on the field
    [period] of the shift. *)
Lemma validateShift_errors_witness :
  exists m,
    ConfigValidationError "Field 'period' in shifts.M must be an object"
    = ConfigValidationError m /\ In m (shift_errors "M").
Proof.
  apply (validateShift_errors "M"
    (JObject [("label", JString "Morning Shift");
              ("color", JString "#FFD700"); ("period", JArray [])])
    (ConfigValidationError "Field 'period' in shifts.M must be an object")).
  reflexivity.
Defined.

Lemma Configuration_shift_order (h : Host)
    (members1 members2 shifts1 shifts2 : list (string * JSON)) :
  lookup "shifts" members1 = Some (JObject shifts1) ->
  lookup "shifts" members2 = Some (JObject shifts2) ->
  Permutation shifts1 shifts2 ->
  (forall field, field <> "shifts" ->
                 lookup field members1 = lookup field members2) ->
  Configuration h (JObject members1) -> Configuration h (JObject members2).
Proof.
  intros H1 H2 Hperm Hrest.
  unfold Configuration. cbn [member].
  rewrite !(Hrest "calendars"), !(Hrest "employees"),
    !(Hrest "deletion_policy"), !(Hrest "event_handling"),
    !(Hrest "timezone") by discriminate.
  rewrite H1, H2.
  intros (Hc & (ss & Hss & Hshifts) & He & Hd & Hev & Htz).
  injection Hss as <-.
  split; [exact Hc|]. split; [|tauto].
  exists shifts2. split; [reflexivity|].
  eapply Permutation_Forall; eassumption.
Qed.

(** X12: the order in which the shifts are enumerated never decides
    whether a document is accepted: two documents whose shifts are the
    same entries in another order, all else equal, are both accepted or
    both refused (the order decides only which error is the first). *)
Theorem validateConfig_shift_order (h : Host)
    (members1 members2 shifts1 shifts2 : list (string * JSON)) :
  lookup "shifts" members1 = Some (JObject shifts1) ->
  lookup "shifts" members2 = Some (JObject shifts2) ->
  Permutation shifts1 shifts2 ->
  (forall field, field <> "shifts" ->
                 lookup field members1 = lookup field members2) ->
  (validateConfig h (Some (JObject members1)) = Ok tt <->
   validateConfig h (Some (JObject members2)) = Ok tt).
Proof.
  intros H1 H2 Hperm Hrest. rewrite !validateConfig_Ok_iff. split.
  - apply (Configuration_shift_order h members1 members2 shifts1 shifts2);
      assumption.
  - apply (Configuration_shift_order h members2 members1 shifts2 shifts1);
      auto using Permutation_sym.
    intros field Hf. symmetry. apply Hrest, Hf.
Qed.

(** The document of the test suite with the night shift before the
    morning shift. *)
Lemma validateConfig_shift_order_witness :
  validateConfig (host_serving validConfig)
    (Some (JObject (validConfig_members_with
                      (JObject [("N", shift_N); ("M", shift_M)]))))
  = Ok tt.
Proof.
  refine (proj1 (validateConfig_shift_order (host_serving validConfig)
    (validConfig_members_with (JObject [("M", shift_M); ("N", shift_N)]))
    (validConfig_members_with (JObject [("N", shift_N); ("M", shift_M)]))
    [("M", shift_M); ("N", shift_N)] [("N", shift_N); ("M", shift_M)]
    eq_refl eq_refl _ _) _).
  - apply perm_swap.
  - intros field Hf. cbn [lookup validConfig_members_with].
    destruct ("calendars" =? field); [reflexivity|].
    destruct (String.eqb_spec "shifts" field) as [E|_]; [congruence|].
    reflexivity.
  - vm_compute. reflexivity.
Defined.

(** X13: the validator sees of the top-level object its six declared
    members only: two documents that agree on them get the same outcome,
    acceptance or error, whatever their other members and the order of
    their members. *)
Theorem validateConfig_declared_only (h : Host)
    (members1 members2 : list (string * JSON)) :
  (forall field, In field (map fst IConfig_fields) ->
                 lookup field members1 = lookup field members2) ->
  validateConfig h (Some (JObject members1))
  = validateConfig h (Some (JObject members2)).
Proof.
  intros H. rewrite !validateConfig_first_throw.
  unfold checks_in_order, policy_check. cbn [own member].
  rewrite (H "calendars"), (H "shifts"), (H "deletion_policy"),
    (H "event_handling"), (H "timezone") by (cbn; auto 10).
  do 3 f_equal.
  apply validateObjectFields_ext; [reflexivity|].
  intros [field type] Hin. apply same_member_same_field. cbn [own member].
  apply H. change field with (fst (field, type)). apply in_map, Hin.
Qed.

(** The document of the test suite, and the same with its members in
    reverse and a member "$schema" in front. *)
Lemma validateConfig_declared_only_witness :
  validateConfig (host_serving validConfig) (Some validConfig)
  = validateConfig (host_serving validConfig)
      (Some (JObject
         [("$schema", JString "./calendarify.schema.json");
          ("timezone", JString "Europe/Madrid");
          ("event_handling", validConfig_event_handling);
          ("deletion_policy", JString "full_sync");
          ("employees", validConfig_employees);
          ("shifts", validConfig_shifts);
          ("calendars", validConfig_calendars)])).
Proof.
  apply (validateConfig_declared_only (host_serving validConfig)).
  intros field [<-|[<-|[<-|[<-|[<-|[<-|[]]]]]]]; reflexivity.
Defined.
